(** * TypeJSON TitleCraft: the client of [typejson_titlecraft/core.py]

    A shallow embedding of [Client.__init__], [Client.generate_title] and
    the three private methods behind it, with the properties of the
    specification proved about them.

    - Python [str] values are lists of code points, so that [len] counts
      characters and [strip] sees every whitespace character Python sees.
    - Exceptions are values of [Exc]; what a call can end with besides a
      value is a [Signal]: an exception, [KeyboardInterrupt] or
      [SystemExit]. A method is a computation in a small state-and-signal
      monad [M] whose state holds the [Client] object and the list of
      requests sent upstream so far.
    - The [openai] package is outside the repository: its constructor and
      its two entry points are parameters, free to return or to raise. *)

From Stdlib Require Import List NArith ZArith QArith String Ascii Bool Lia.
From Stdlib Require DecimalString.
Import ListNotations.

Set Warnings "-register-all".

(** ** Python strings *)

Module PyStr.

(** A [str] is its sequence of Unicode code points. *)
Definition str : Type := list N.

(** [a == b] *)
Fixpoint eqb (a b : str) : bool :=
  match a, b with
  | [], [] => true
  | x :: a', y :: b' => (x =? y)%N && eqb a' b'
  | _, _ => false
  end.

(** Reading of the UTF-8 bytes of a literal of this file as code points. *)
Fixpoint utf8_decode (bs : list N) : str :=
  match bs with
  | [] => []
  | b0 :: r0 =>
      if (b0 <? 128)%N then b0 :: utf8_decode r0
      else
        match r0 with
        | [] => []
        | b1 :: r1 =>
            if (b0 <? 224)%N
            then ((b0 - 192) * 64 + (b1 - 128))%N :: utf8_decode r1
            else
              match r1 with
              | [] => []
              | b2 :: r2 =>
                  if (b0 <? 240)%N
                  then ((b0 - 224) * 4096 + (b1 - 128) * 64 + (b2 - 128))%N
                         :: utf8_decode r2
                  else
                    match r2 with
                    | [] => []
                    | b3 :: r3 =>
                        ((b0 - 240) * 262144 + (b1 - 128) * 4096
                         + (b2 - 128) * 64 + (b3 - 128))%N
                          :: utf8_decode r3
                    end
              end
        end
  end.

Definition lit (s : string) : str :=
  utf8_decode (List.map N_of_ascii (list_ascii_of_string s)).

Definition LF : str := [10%N].
Definition DQUOTE : str := [34%N].
Definition SQUOTE : str := [39%N].

(** [len(s)] *)
Definition len (s : str) : Z := Z.of_nat (List.length s).

(** Truth value of a [str]: false exactly for the empty string. *)
Definition truthy (s : str) : bool :=
  match s with [] => false | _ :: _ => true end.

(** Truth value of a [str | None]. *)
Definition truthy_opt (o : option str) : bool :=
  match o with None => false | Some s => truthy s end.

(** The characters [str.strip()] removes when called without argument:
    CPython's [_PyUnicode_IsWhitespace]. *)
Definition is_whitespace (c : N) : bool :=
  ((9 <=? c) && (c <=? 13) || (28 <=? c) && (c <=? 32)
   || (c =? 133) || (c =? 160) || (c =? 5760)
   || (8192 <=? c) && (c <=? 8202)
   || (c =? 8232) || (c =? 8233) || (c =? 8239) || (c =? 8287)
   || (c =? 12288))%N.

Fixpoint lstrip_by (p : N -> bool) (s : str) : str :=
  match s with
  | [] => []
  | c :: r => if p c then lstrip_by p r else s
  end.

Definition rstrip_by (p : N -> bool) (s : str) : str :=
  rev (lstrip_by p (rev s)).

Definition strip_by (p : N -> bool) (s : str) : str :=
  rstrip_by p (lstrip_by p s).

(** [s.strip()] *)
Definition strip (s : str) : str := strip_by is_whitespace s.

(** [s.strip(chars)]: every leading and every trailing character that
    occurs in [chars] is removed. *)
Definition strip_chars (chars s : str) : str :=
  strip_by (fun c => existsb (N.eqb c) chars) s.

(** [sep.join(xs)] *)
Fixpoint join (sep : str) (xs : list str) : str :=
  match xs with
  | [] => []
  | [x] => x
  | x :: r => x ++ sep ++ join sep r
  end.

(** [x in xs] for a list or a set of strings. *)
Definition mem (x : str) (xs : list str) : bool := existsb (eqb x) xs.

Fixpoint startswith (s p : str) : bool :=
  match p, s with
  | [], _ => true
  | _ :: _, [] => false
  | a :: p', b :: s' => (a =? b)%N && startswith s' p'
  end.

(** [needle in hay] for two strings. *)
Fixpoint contains (hay needle : str) : bool :=
  startswith hay needle
  || match hay with
     | [] => false
     | _ :: r => contains r needle
     end.

End PyStr.
Import PyStr.

(** ** Exceptions *)

(** [TitleCraftError] has the two subclasses below; [IndexError] is what
    indexing an empty list raises; [OtherException] stands for any other
    [Exception] instance, seen through the two things the handler of
    [generate_title] looks at: its [status_code] attribute, when it has
    one, and [str(e)]. The second argument of [APIError] is the exception
    named by [raise ... from]. *)
Inductive Exc : Type :=
| ValidationError (msg : str)
| APIError (msg : str) (cause : option Exc)
| IndexError (msg : str)
| OtherException (status_code : option Z) (msg : str).

(** [hasattr(e, 'status_code')] and [e.status_code] in one. *)
Definition exc_status_code (e : Exc) : option Z :=
  match e with
  | OtherException sc _ => sc
  | _ => None
  end.

(** [str(e)] *)
Definition exc_str (e : Exc) : str :=
  match e with
  | ValidationError m => m
  | APIError m _ => m
  | IndexError m => m
  | OtherException _ m => m
  end.

(** What unwinds the stack: [sys.exit(code)], [KeyboardInterrupt], or an
    instance of [Exception]. The first two are not instances of
    [Exception], and [except Exception] lets them pass. *)
Inductive Signal : Type :=
| SystemExit (code : Z)
| KeyboardInterrupt
| Exception (e : Exc).

Definition is_ValidationError {A : Type} (r : Signal + A) : Prop :=
  exists msg, r = inl (Exception (ValidationError msg)).

(** ** The upstream package *)

(** A client object of the package, as [OpenAI(api_key=...)] returns it. *)
Record OpenAI : Type := { api_key : option str }.

(** An exception the constructor of the package raises (a [ValueError]
    for a setting of the environment it cannot use, say): an exception of
    the package or of what it builds on, never one of this repository. *)
Record LibraryError : Type := {
  lib_status_code : option Z;
  lib_message : str
}.

Definition raised_by_library (e : LibraryError) : Exc :=
  OtherException (lib_status_code e) (lib_message e).

Module Responses.
(** Keyword arguments of [responses.create]; the two dictionaries are
    association lists. *)
Record kwargs : Type := {
  model : str;
  input : str;
  reasoning : list (str * str);
  text : list (str * str);
  timeout : Q
}.
(** The part of a response the client reads. *)
Record Response : Type := { output_text : option str }.
End Responses.

Module Chat.
Record Message : Type := { role : str; content : str }.
(** Keyword arguments of [chat.completions.create]. *)
Record kwargs : Type := {
  model : str;
  messages : list Message;
  max_completion_tokens : Z;
  temperature : Q;
  timeout : Q
}.
Record ChatCompletionMessage : Type := { message_content : option str }.
Record Choice : Type := { message : ChatCompletionMessage }.
Record ChatCompletion : Type := { choices : list Choice }.
End Chat.

(** A request sent upstream. *)
Inductive Call : Type :=
| ResponsesCreate (k : Responses.kwargs)
| ChatCompletionsCreate (k : Chat.kwargs).

(** ** Module constants *)

Definition SUPPORTED_MODELS : list str :=
  [lit "gpt-5"; lit "gpt-5-mini"; lit "gpt-5-nano"; lit "gpt-4o";
   lit "gpt-4o-mini"; lit "gpt-4"; lit "gpt-3.5-turbo"].

Definition GPT5_MODELS : list str :=
  [lit "gpt-5"; lit "gpt-5-mini"; lit "gpt-5-nano"].

Definition DEFAULT_MODEL : str := lit "gpt-4o".

(** ** The client object and the monad of its methods *)

Record Client : Type := { model : str; _client : OpenAI }.

(** The state a method runs in: the object it is called on and the
    requests that have reached the upstream service. *)
Record State : Type := { self : Client; sent : list Call }.

Definition M (A : Type) : Type := State -> State * (Signal + A).

Definition ret {A : Type} (a : A) : M A := fun s => (s, inr a).

Definition bind {A B : Type} (m : M A) (f : A -> M B) : M B :=
  fun s =>
    match m s with
    | (s', inl sig) => (s', inl sig)
    | (s', inr a) => f a s'
    end.

Definition raise {A : Type} (e : Exc) : M A :=
  fun s => (s, inl (Exception e)).

(** [try: body  except Exception as e: handler e] *)
Definition try_except {A : Type} (body : M A) (handler : Exc -> M A) : M A :=
  fun s =>
    match body s with
    | (s', inl (Exception e)) => handler e s'
    | (s', inl sig) => (s', inl sig)
    | (s', inr a) => (s', inr a)
    end.

Definition get_self : M Client := fun s => (s, inr (self s)).

Notation "x <- c ;; k" := (bind c (fun x => k))
  (at level 61, c at next level, right associativity).
Notation "c ;;; k" := (bind c (fun _ => k))
  (at level 61, right associativity).

(** [a or b] on [str | None] values. *)
Definition py_or (a b : option str) : option str :=
  if truthy_opt a then a else b.

(** ** [Client.__init__] *)

(** [environ] is [os.getenv]: the value of a variable of the process
    environment, when it is set. [new_OpenAI] is the constructor of the
    package, [OpenAI(api_key=...)]: it sees the environment too, and it
    returns a client or raises. *)
Definition Client_init
    (new_OpenAI : (str -> option str) -> option str -> LibraryError + OpenAI)
    (environ : str -> option str)
    (openai_api_key : option str) (model : str) : Signal + Client :=
  if negb (mem model SUPPORTED_MODELS) then
    inl (Exception
           (ValidationError
              (lit "Unsupported model '" ++ model ++ lit "'. Supported models: "
               ++ join (lit ", ") SUPPORTED_MODELS)))
  else
    let api_key := py_or openai_api_key (environ (lit "OPENAI_API_KEY")) in
    if negb (truthy_opt api_key) then
      inl (Exception
             (ValidationError
                (lit "OpenAI API key required. Provide it via openai_api_key parameter "
                 ++ lit "or set OPENAI_API_KEY environment variable.")))
    else
      match new_OpenAI environ api_key with
      | inl e => inl (Exception (raised_by_library e))
      | inr client => inr {| model := model; _client := client |}
      end.

(** ** The command line: what a run of [cli.py] acts on *)

(** The namespace [parser.parse_args()] returns: the parser of
    [create_parser] is [argparse]'s, and [main] is modelled from the
    namespace it gets. *)
Record Namespace : Type := {
  args_text : option str;
  args_stdin : bool;
  args_model : str;
  args_api_key : option str;
  args_verbose : bool
}.

(** The two output streams and the requests that reached the upstream
    service. *)
Record Process : Type := { stdout : str; stderr : str; requests : list Call }.

Definition IO (A : Type) : Type := Process -> Process * (Signal + A).

Definition io_ret {A : Type} (a : A) : IO A := fun w => (w, inr a).

Definition io_bind {A B : Type} (m : IO A) (f : A -> IO B) : IO B :=
  fun w =>
    match m w with
    | (w', inl sig) => (w', inl sig)
    | (w', inr a) => f a w'
    end.

Definition io_raise {A : Type} (sig : Signal) : IO A := fun w => (w, inl sig).

(** [try: body  except ...: handler]; the handler re-raises what no
    clause catches. *)
Definition io_try {A : Type} (body : IO A) (handler : Signal -> IO A) : IO A :=
  fun w =>
    match body w with
    | (w', inl sig) => handler sig w'
    | (w', inr a) => (w', inr a)
    end.

Declare Scope io_scope.
Delimit Scope io_scope with io.
Notation "x <- c ;; k" := (io_bind c (fun x => k))
  (at level 61, c at next level, right associativity) : io_scope.
Notation "c ;;; k" := (io_bind c (fun _ => k))
  (at level 61, right associativity) : io_scope.

(** [sys.stdout.write(s)] and [sys.stderr.write(s)] *)
Definition write_stdout (s : str) : IO unit :=
  fun w =>
    ({| stdout := stdout w ++ s; stderr := stderr w; requests := requests w |},
     inr tt).

Definition write_stderr (s : str) : IO unit :=
  fun w =>
    ({| stdout := stdout w; stderr := stderr w ++ s; requests := requests w |},
     inr tt).

(** [print(s)] and [print(s, file=sys.stderr)] *)
Definition print (s : str) : IO unit := write_stdout (s ++ LF).
Definition print_stderr (s : str) : IO unit := write_stderr (s ++ LF).

(** [sys.exit(code)] *)
Definition sys_exit {A : Type} (code : Z) : IO A := io_raise (SystemExit code).

(** [str(n)] for an integer. *)
Definition str_of_int (n : Z) : str :=
  lit (DecimalString.NilZero.string_of_int (Z.to_int n)).

(** [isinstance(e, TitleCraftError)] *)
Definition is_TitleCraftError (e : Exc) : bool :=
  match e with
  | ValidationError _ => true
  | APIError _ _ => true
  | _ => false
  end.

(** [Client(...)] inside a process: what [__init__] raises unwinds. *)
Definition construct (r : Signal + Client) : IO Client := fun w => (w, r).

(** [client.method(...)] inside a process: the method runs on [client]
    and on the requests sent so far. *)
Definition call_method {A : Type} (client : Client) (m : M A) : IO A :=
  fun w =>
    match m {| self := client; sent := requests w |} with
    | (s', r) =>
        ({| stdout := stdout w; stderr := stderr w; requests := sent s' |}, r)
    end.

(** ** Test doubles for the upstream package

    Constant behaviours, as the mocks of [tests/test_core.py] have them. *)

Definition responses_returning (payload : option str)
    : OpenAI -> Responses.kwargs -> Signal + Responses.Response :=
  fun _ _ => inr {| Responses.output_text := payload |}.

Definition chat_returning (payload : option str)
    : OpenAI -> Chat.kwargs -> Signal + Chat.ChatCompletion :=
  fun _ _ =>
    inr {| Chat.choices :=
             [ {| Chat.message := {| Chat.message_content := payload |} |} ] |}.

Definition responses_raising (e : Exc)
    : OpenAI -> Responses.kwargs -> Signal + Responses.Response :=
  fun _ _ => inl (Exception e).

Definition chat_raising (e : Exc)
    : OpenAI -> Chat.kwargs -> Signal + Chat.ChatCompletion :=
  fun _ _ => inl (Exception e).

(** A call that the user interrupts. *)
Definition chat_interrupted
    : OpenAI -> Chat.kwargs -> Signal + Chat.ChatCompletion :=
  fun _ _ => inl KeyboardInterrupt.

(** A constructor that always returns the client holding the key. *)
Definition OpenAI_plain
    : (str -> option str) -> option str -> LibraryError + OpenAI :=
  fun _ key => inr {| api_key := key |}.

(** A constructor that, like the one of the package, reads the proxy
    setting of the environment and raises a [ValueError] for a proxy URL
    whose scheme it does not know. *)
Definition OpenAI_checking_proxy
    : (str -> option str) -> option str -> LibraryError + OpenAI :=
  fun environ key =>
    match environ (lit "HTTPS_PROXY") with
    | Some url =>
        if startswith url (lit "http://") || startswith url (lit "https://")
           || startswith url (lit "socks5://")
        then inr {| api_key := key |}
        else inl {| lib_status_code := None;
                    lib_message := lit "Unknown scheme for proxy URL" |}
    | None => inr {| api_key := key |}
    end.

(** An environment with [HTTPS_PROXY=bogus://x], and [OPENAI_API_KEY]
    set to [value] when there is one. *)
Definition environ_bogus_proxy (value : option str) : str -> option str :=
  fun name =>
    if eqb name (lit "HTTPS_PROXY") then Some (lit "bogus://x")
    else if eqb name (lit "OPENAI_API_KEY") then value
    else None.

Definition test_client (m : str) : Client :=
  {| model := m; _client := {| api_key := Some (lit "test-key") |} |}.

Definition fresh (c : Client) : State := {| self := c; sent := [] |}.

(** An upstream failure with a status in none of the three classes. *)
Definition failure_404 : Exc := OtherException (Some 404%Z) (lit "Not found").

(** The payload [A] inside two layers of double quotes. *)
Definition doubly_quoted : str := DQUOTE ++ DQUOTE ++ lit "A" ++ DQUOTE ++ DQUOTE.

(** An environment with [OPENAI_API_KEY] set to [value], and one without. *)
Definition environ_with (value : str) : str -> option str :=
  fun name => if eqb name (lit "OPENAI_API_KEY") then Some value else None.

Definition environ_empty : str -> option str := fun _ => None.

(** ["x" * n] *)
Definition x_times (n : N) : str := repeat 120%N (N.to_nat n).

(** Command lines: a positional text, and [--stdin]. *)
Definition args_positional (text : option str) (verbose : bool) : Namespace :=
  {| args_text := text; args_stdin := false; args_model := DEFAULT_MODEL;
     args_api_key := Some (lit "test-key"); args_verbose := verbose |}.

Definition args_from_stdin (verbose : bool) : Namespace :=
  {| args_text := None; args_stdin := true; args_model := DEFAULT_MODEL;
     args_api_key := Some (lit "test-key"); args_verbose := verbose |}.

Definition started : Process := {| stdout := []; stderr := []; requests := [] |}.

(** A help text, a traceback printer, and a standard input that holds a
    text between spaces. *)
Definition help_text : str := lit "usage: typejson-titlecraft".
Definition no_traceback : Exc -> str := fun _ => [].
Definition stdin_hi : Signal + str := inr (lit " hi ").

(** ** The methods *)

Section Methods.

(** [client.responses.create] and [client.chat.completions.create] of the
    [openai] package: each either raises or returns a response. *)
Variable responses_create :
  OpenAI -> Responses.kwargs -> Signal + Responses.Response.
Variable chat_completions_create :
  OpenAI -> Chat.kwargs -> Signal + Chat.ChatCompletion.

(** A call of an upstream entry point: the request is recorded, the
    answer is the one of the package. *)
Definition call_responses_create (cl : OpenAI) (k : Responses.kwargs)
    : M Responses.Response :=
  fun s =>
    ({| self := self s; sent := sent s ++ [ResponsesCreate k] |},
     responses_create cl k).

Definition call_chat_completions_create (cl : OpenAI) (k : Chat.kwargs)
    : M Chat.ChatCompletion :=
  fun s =>
    ({| self := self s; sent := sent s ++ [ChatCompletionsCreate k] |},
     chat_completions_create cl k).

Definition base_prompt : str :=
  lit "You convert plain text into a concise, descriptive, human-readable title for "
  ++ lit "frontend display." ++ LF
  ++ lit "Rules:" ++ LF
  ++ lit "• Output in the same language as the input." ++ LF
  ++ lit "• Be concise: aim for 4–9 words or ≤60 characters. Prefer clarity over creativity." ++ LF
  ++ lit "• Preserve key proper nouns and terms; do not invent information." ++ LF
  ++ lit "• Remove filler words, boilerplate, IDs, and dates unless essential." ++ LF
  ++ lit "• Casing: Title Case for Latin scripts; keep natural casing for non-Latin scripts "
  ++ lit "(e.g., Japanese)." ++ LF
  ++ lit "• Punctuation: no quotes/brackets/emojis/hashtags; no trailing period. Use colon "
  ++ lit "or dash only if it clearly improves clarity." ++ LF
  ++ lit "• If the input is already a good title, normalize casing/spacing and return it." ++ LF
  ++ lit "• If input is empty or meaningless, return: Untitled" ++ LF
  ++ lit "Return only the title text—no explanations.".

(** The literal returned for the older model. *)
Definition simple_prompt : str :=
  lit "Convert text to a concise title (4-9 words, ≤60 chars). "
  ++ lit "Same language as input. Title Case for Latin scripts. "
  ++ lit "No quotes/brackets/emojis. Return only the title.".

Definition _get_system_prompt : M str :=
  this <- get_self ;;
  if mem (model this) [lit "gpt-3.5-turbo"] then
    ret simple_prompt
  else
    ret base_prompt.

Definition _generate_title_responses_api (text : str) : M str :=
  this <- get_self ;;
  system_prompt <- _get_system_prompt ;;
  let prompt :=
    system_prompt ++ LF ++ LF ++ lit "Text to convert to title: " ++ text in
  response <- call_responses_create (_client this)
                {| Responses.model := model this;
                   Responses.input := prompt;
                   Responses.reasoning := [(lit "effort", lit "minimal")];
                   Responses.text := [(lit "verbosity", lit "low")];
                   Responses.timeout := 30 |} ;;
  let title :=
    if truthy_opt (Responses.output_text response)
    then Responses.output_text response else None in
  match title with
  | Some ((_ :: _) as title) =>
      ret (strip_chars SQUOTE (strip_chars DQUOTE (strip title)))
  | _ =>
      raise (APIError (lit "Model '" ++ model this ++ lit "' returned empty response.")
               None)
  end.

Definition _generate_title_chat_api (text : str) : M str :=
  this <- get_self ;;
  system_prompt <- _get_system_prompt ;;
  response <- call_chat_completions_create (_client this)
                {| Chat.model := model this;
                   Chat.messages :=
                     [ {| Chat.role := lit "system"; Chat.content := system_prompt |};
                       {| Chat.role := lit "user"; Chat.content := text |} ];
                   Chat.max_completion_tokens := 50;
                   Chat.temperature := 0.3;
                   Chat.timeout := 30 |} ;;
  match Chat.choices response with
  | [] => raise (IndexError (lit "list index out of range"))
  | choice0 :: _ =>
      match Chat.message_content (Chat.message choice0) with
      | Some ((_ :: _) as title) =>
          ret (strip_chars SQUOTE (strip_chars DQUOTE (strip title)))
      | _ => raise (APIError (lit "OpenAI API returned empty response.") None)
      end
  end.

Definition generate_title (text : str) : M str :=
  if negb (truthy text) || negb (truthy (strip text)) then
    raise (ValidationError (lit "Input text cannot be empty."))
  else
    let text := strip text in
    if (len text >? 8000)%Z then
      raise (ValidationError (lit "Input text too long (max 8000 characters)."))
    else
      try_except
        (this <- get_self ;;
         if mem (model this) GPT5_MODELS
         then _generate_title_responses_api text
         else _generate_title_chat_api text)
        (fun e =>
           match exc_status_code e with
           | Some status_code =>
               if (status_code =? 429)%Z then
                 raise (APIError (lit "Rate limit exceeded. Please try again later.")
                          (Some e))
               else if (status_code =? 401)%Z then
                 raise (APIError (lit "Invalid API key.") (Some e))
               else if (status_code >=? 500)%Z then
                 raise (APIError
                          (lit "OpenAI API server error. Please try again later.")
                          (Some e))
               else ret tt
           | None => ret tt
           end ;;;
           raise (APIError (lit "Failed to generate title: " ++ exc_str e) (Some e))).

(** ** [cli.py] *)

Section Cli.

(** The constructor of the package, the process environment
    ([os.getenv]), [sys.stdin.read()], which returns the input or is
    interrupted, the text of [parser.print_help()] and the text of
    [traceback.print_exc()]. *)
Variable new_OpenAI :
  (str -> option str) -> option str -> LibraryError + OpenAI.
Variable os_getenv : str -> option str.
Variable sys_stdin_read : Signal + str.
Variable format_help : str.
Variable format_exc : Exc -> str.

Definition read_stdin : IO str :=
  io_try
    (content <- (fun w => (w, sys_stdin_read)) ;;
     io_ret (strip content))%io
    (fun sig =>
       match sig with
       | KeyboardInterrupt =>
           (print_stderr (LF ++ lit "Operation cancelled.") ;;;
            sys_exit 1)%io
       | _ => io_raise sig
       end).

Definition main (args : Namespace) : IO unit :=
  (text <- (if args_stdin args then
              text <- read_stdin ;;
              if negb (truthy text) then
                print_stderr (lit "Error: No input provided via stdin.") ;;;
                sys_exit 1
              else io_ret text
            else
              match args_text args with
              | Some ((_ :: _) as text) => io_ret text
              | _ =>
                  print_stderr (lit "Error: No text provided.") ;;;
                  write_stdout format_help ;;;
                  sys_exit 1
              end) ;;
   io_try
     ((if args_verbose args
       then print_stderr (lit "Using model: " ++ args_model args)
       else io_ret tt) ;;;
      client <- construct (Client_init new_OpenAI os_getenv
                             (args_api_key args) (args_model args)) ;;
      (if args_verbose args
       then print_stderr (lit "Generating title for " ++ str_of_int (len text)
                          ++ lit " characters of text...")
       else io_ret tt) ;;;
      title <- call_method client (generate_title text) ;;
      print title)
     (fun sig =>
        match sig with
        | SystemExit _ => io_raise sig
        | KeyboardInterrupt =>
            print_stderr (LF ++ lit "Operation cancelled.") ;;;
            sys_exit 1
        | Exception e =>
            if is_TitleCraftError e then
              print_stderr (lit "Error: " ++ exc_str e) ;;;
              sys_exit 1
            else
              print_stderr (lit "Unexpected error: " ++ exc_str e) ;;;
              (if args_verbose args then write_stderr (format_exc e)
               else io_ret tt) ;;;
              sys_exit 1
        end))%io.

(** *** Vocabulary for the runs of [main] *)

(** The text a run works on, when it gets as far as the [try] block: the
    stripped standard input, or the positional argument. *)
Definition input_text (args : Namespace) : option str :=
  if args_stdin args then
    match sys_stdin_read with
    | inr content =>
        if truthy (strip content) then Some (strip content) else None
    | inl _ => None
    end
  else
    if truthy_opt (args_text args) then args_text args else None.

(** A line on [stderr]. *)
Definition log (w : Process) (line : str) : Process :=
  {| stdout := stdout w; stderr := stderr w ++ line ++ LF;
     requests := requests w |}.

(** The two lines of [--verbose], in the order [main] prints them. *)
Definition using_model_line (args : Namespace) : str :=
  lit "Using model: " ++ args_model args.

Definition generating_line (text : str) : str :=
  lit "Generating title for " ++ str_of_int (len text)
  ++ lit " characters of text...".

Definition verbose_log (args : Namespace) (w : Process) (line : str) : Process :=
  if args_verbose args then log w line else w.

(** What the three [except] clauses of [main] write to the standard
    error for a signal: the error line of a [TitleCraftError], the
    cancellation notice, or the line of an unexpected exception, followed
    by the traceback under [--verbose]. *)
Definition report_text (args : Namespace) (sig : Signal) : str :=
  match sig with
  | SystemExit _ => []
  | KeyboardInterrupt => (LF ++ lit "Operation cancelled.") ++ LF
  | Exception e =>
      if is_TitleCraftError e then (lit "Error: " ++ exc_str e) ++ LF
      else if args_verbose args
           then ((lit "Unexpected error: " ++ exc_str e) ++ LF) ++ format_exc e
           else (lit "Unexpected error: " ++ exc_str e) ++ LF
  end.

(** How the [try] block of [main] ends on a signal: [sys.exit] passes,
    everything else is reported and becomes exit status 1. *)
Definition handled (args : Namespace) (sig : Signal) (w : Process)
    : Process * (Signal + unit) :=
  match sig with
  | SystemExit code => (w, inl (SystemExit code))
  | _ =>
      ({| stdout := stdout w; stderr := stderr w ++ report_text args sig;
          requests := requests w |}, inl (SystemExit 1))
  end.

(** The exit of the [try] block on a signal, and what [--verbose] adds
    to the standard error for a line. *)
Definition exit_of (sig : Signal) : Signal + unit :=
  match sig with
  | SystemExit code => inl (SystemExit code)
  | _ => inl (SystemExit 1)
  end.

Definition verbose_text (args : Namespace) (line : str) : str :=
  if args_verbose args then line ++ LF else [].

(** The run of the [try] block of [main] on a text, case by case. *)
Definition run_with (args : Namespace) (text : str) (w : Process)
    : Process * (Signal + unit) :=
  let w1 := verbose_log args w (using_model_line args) in
  match Client_init new_OpenAI os_getenv (args_api_key args)
          (args_model args) with
  | inl sig => handled args sig w1
  | inr client =>
      let w2 := verbose_log args w1 (generating_line text) in
      match generate_title text {| self := client; sent := requests w2 |} with
      | (s', inr title) =>
          ({| stdout := stdout w2 ++ title ++ LF; stderr := stderr w2;
              requests := sent s' |}, inr tt)
      | (s', inl sig) =>
          handled args sig
            {| stdout := stdout w2; stderr := stderr w2;
               requests := sent s' |}
      end
  end.

(** The same command line with [--verbose] set or not. *)
Definition with_verbose (verbose : bool) (args : Namespace) : Namespace :=
  {| args_text := args_text args; args_stdin := args_stdin args;
     args_model := args_model args; args_api_key := args_api_key args;
     args_verbose := verbose |}.

(** The same command line with the text as positional argument. *)
Definition with_text (text : str) (args : Namespace) : Namespace :=
  {| args_text := Some text; args_stdin := false;
     args_model := args_model args; args_api_key := args_api_key args;
     args_verbose := args_verbose args |}.

End Cli.

(** ** Vocabulary of the specification *)

(** Validated input: the stripped text has between 1 and 8000 characters. *)
Definition valid_input (text : str) : Prop :=
  strip text <> [] /\ (len (strip text) <= 8000)%Z.

(** The two instructions by model: the simplified one for the one older
    model, the full one for the others. *)
Definition instruction_for (m : str) : str :=
  if eqb m (lit "gpt-3.5-turbo") then simple_prompt else base_prompt.

(** Class A is [GPT5_MODELS]; class B is the rest of the supported set. *)
Definition class_A (m : str) : Prop := In m GPT5_MODELS.
Definition class_B (m : str) : Prop := In m SUPPORTED_MODELS /\ ~ In m GPT5_MODELS.

(** The request made for a stripped text, by the class of the model. *)
Definition request_for (c : Client) (text : str) : Call :=
  if mem (model c) GPT5_MODELS then
    ResponsesCreate
      {| Responses.model := model c;
         Responses.input :=
           instruction_for (model c) ++ LF ++ LF
           ++ lit "Text to convert to title: " ++ text;
         Responses.reasoning := [(lit "effort", lit "minimal")];
         Responses.text := [(lit "verbosity", lit "low")];
         Responses.timeout := 30 |}
  else
    ChatCompletionsCreate
      {| Chat.model := model c;
         Chat.messages :=
           [ {| Chat.role := lit "system"; Chat.content := instruction_for (model c) |};
             {| Chat.role := lit "user"; Chat.content := text |} ];
         Chat.max_completion_tokens := 50;
         Chat.temperature := 0.3;
         Chat.timeout := 30 |}.

(** What the upstream service answers to a request: a failure (an
    exception), or a response seen through its text payload
    ([output_text], or the [content] of the first choice), or a chat
    response without choices; or the call is cut short by a
    [KeyboardInterrupt] or a [SystemExit]. *)
Inductive Answer : Type :=
| Raised (e : Exc)
| Payload (p : option str)
| NoChoice
| Interrupted
| Exited (code : Z).

Definition cut_short (sig : Signal) : Answer :=
  match sig with
  | Exception e => Raised e
  | KeyboardInterrupt => Interrupted
  | SystemExit code => Exited code
  end.

Definition upstream_answer (cl : OpenAI) (call : Call) : Answer :=
  match call with
  | ResponsesCreate k =>
      match responses_create cl k with
      | inl sig => cut_short sig
      | inr r => Payload (Responses.output_text r)
      end
  | ChatCompletionsCreate k =>
      match chat_completions_create cl k with
      | inl sig => cut_short sig
      | inr r =>
          match Chat.choices r with
          | [] => NoChoice
          | choice0 :: _ => Payload (Chat.message_content (Chat.message choice0))
          end
      end
  end.

(** The post-processing of a payload as the code performs it. *)
Definition clean_title (payload : str) : str :=
  strip_chars SQUOTE (strip_chars DQUOTE (strip payload)).

(** The post-processing as the specification words it: surrounding
    whitespace, then one layer of surrounding quote characters. A layer
    is read either as a matching pair around the text ... *)
Definition strip_one_pair (s : str) : str :=
  match s with
  | q :: r =>
      match rev r with
      | q' :: m =>
          if ((q =? q') && ((q =? 34) || (q =? 39)))%N then rev m else s
      | [] => s
      end
  | [] => s
  end.

Definition spec_title_pair (payload : str) : str :=
  strip_one_pair (strip payload).

(** ... or as at most one quote character at each end. *)
Definition is_quote (c : N) : bool := ((c =? 34) || (c =? 39))%N.

(** A character that the post-processing of a payload may remove. *)
Definition is_trimmed (c : N) : bool := is_whitespace c || is_quote c.

Definition drop_one_quote (s : str) : str :=
  match s with
  | q :: r => if is_quote q then r else s
  | [] => s
  end.

Definition spec_title_each_end (payload : str) : str :=
  rev (drop_one_quote (rev (drop_one_quote (strip payload)))).

(** The exception the handler of [generate_title] raises for [e]. *)
Definition translate_failure (e : Exc) : Exc :=
  let generic := APIError (lit "Failed to generate title: " ++ exc_str e) (Some e) in
  match exc_status_code e with
  | Some sc =>
      if (sc =? 429)%Z then
        APIError (lit "Rate limit exceeded. Please try again later.") (Some e)
      else if (sc =? 401)%Z then APIError (lit "Invalid API key.") (Some e)
      else if (sc >=? 500)%Z then
        APIError (lit "OpenAI API server error. Please try again later.") (Some e)
      else generic
  | None => generic
  end.

(** The message of the inner "empty response" error, by call style. *)
Definition empty_response_message (c : Client) : str :=
  if mem (model c) GPT5_MODELS
  then lit "Model '" ++ model c ++ lit "' returned empty response."
  else lit "OpenAI API returned empty response.".

(** A credential is available when the explicit argument or the
    environment variable holds a non-empty string: the truth value
    [__init__] tests. *)
Definition credential_available (environ : str -> option str)
    (openai_api_key : option str) : Prop :=
  truthy_opt openai_api_key = true
  \/ truthy_opt (environ (lit "OPENAI_API_KEY")) = true.

(** What [generate_title] gives back for a validated text, by the answer
    of the upstream service. *)
Definition result_of (c : Client) (a : Answer) : Signal + str :=
  match a with
  | Raised e => inl (Exception (translate_failure e))
  | Payload (Some ((_ :: _) as p)) => inr (clean_title p)
  | Payload _ =>
      inl (Exception
             (translate_failure (APIError (empty_response_message c) None)))
  | NoChoice =>
      inl (Exception
             (translate_failure (IndexError (lit "list index out of range"))))
  | Interrupted => inl KeyboardInterrupt
  | Exited code => inl (SystemExit code)
  end.

(** ** Basic facts *)

Example lit_ascii : lit "gpt-4o" = [103; 112; 116; 45; 52; 111]%N.
Proof. reflexivity. Qed.

Example lit_unicode : lit "•–≤—" = [8226; 8211; 8804; 8212]%N.
Proof. reflexivity. Qed.

Example strip_example :
  strip (lit "  " ++ LF ++ lit "  Test text with whitespace  " ++ LF ++ lit "  ")
  = lit "Test text with whitespace".
Proof. reflexivity. Qed.

Arguments lit : simpl never.

(** [lstrip_by] removes a prefix of characters of the class and stops at
    the first character outside it. *)
Lemma lstrip_by_split (p : N -> bool) (s : str) :
  exists pre, s = pre ++ lstrip_by p s /\ forallb p pre = true.
Proof.
  induction s as [|c r [pre [IH1 IH2]]]; [exists []; auto|].
  simpl. destruct (p c) eqn:E.
  - exists (c :: pre). simpl. rewrite E, IH2, <- IH1. auto.
  - exists []. auto.
Qed.

Lemma lstrip_by_head (p : N -> bool) (s : str) (c : N) (r : str) :
  lstrip_by p s = c :: r -> p c = false.
Proof.
  induction s as [|d t IH]; simpl; [discriminate|].
  destruct (p d) eqn:E; [assumption|].
  intros H. injection H as -> _. assumption.
Qed.

Lemma forallb_rev (p : N -> bool) (l : str) :
  forallb p (rev l) = forallb p l.
Proof.
  induction l as [|c r IH]; [reflexivity|].
  simpl. rewrite forallb_app, IH. simpl. rewrite andb_true_r. apply andb_comm.
Qed.

(** [strip_by] removes a prefix and a suffix of characters of the class,
    and what is left neither starts nor ends with such a character: every
    leading and every trailing one is gone, not only the outermost. *)
Lemma strip_by_split (p : N -> bool) (s : str) :
  exists pre suf,
    s = pre ++ strip_by p s ++ suf
    /\ forallb p pre = true /\ forallb p suf = true.
Proof.
  unfold strip_by, rstrip_by.
  destruct (lstrip_by_split p s) as [pre [H1 H2]].
  destruct (lstrip_by_split p (rev (lstrip_by p s))) as [suf [H3 H4]].
  exists pre, (rev suf). split; [|split].
  - rewrite <- rev_app_distr, <- H3, rev_involutive. assumption.
  - assumption.
  - rewrite forallb_rev. assumption.
Qed.

Lemma strip_by_first (p : N -> bool) (s : str) (c : N) (r : str) :
  strip_by p s = c :: r -> p c = false.
Proof.
  unfold strip_by, rstrip_by. intros H.
  destruct (lstrip_by_split p (rev (lstrip_by p s))) as [suf [H3 _]].
  apply (f_equal (@rev N)) in H. rewrite rev_involutive in H.
  rewrite H in H3. apply (f_equal (@rev N)) in H3.
  rewrite rev_involutive, rev_app_distr, rev_involutive in H3.
  simpl in H3. exact (lstrip_by_head p s c _ H3).
Qed.

Lemma strip_by_last (p : N -> bool) (s : str) (c : N) (r : str) :
  strip_by p s = r ++ [c] -> p c = false.
Proof.
  unfold strip_by, rstrip_by. intros H.
  apply (f_equal (@rev N)) in H.
  rewrite rev_involutive, rev_app_distr in H. simpl in H.
  exact (lstrip_by_head p _ c _ H).
Qed.

Lemma truthy_false (s : str) : truthy s = false <-> s = [].
Proof. destruct s; simpl; split; congruence. Qed.

Lemma eqb_eq (a b : str) : eqb a b = true <-> a = b.
Proof.
  revert b; induction a as [|x a IH]; intros [|y b]; simpl;
    try (split; congruence).
  rewrite andb_true_iff, N.eqb_eq, IH. split.
  - intros [-> ->]; reflexivity.
  - intros H; injection H; auto.
Qed.

Lemma mem_In (x : str) (xs : list str) : mem x xs = true <-> In x xs.
Proof.
  unfold mem. rewrite existsb_exists. split.
  - intros [y [Hy He]]. apply eqb_eq in He. subst; assumption.
  - intros H. exists x. split; [assumption | apply eqb_eq; reflexivity].
Qed.

Lemma mem_not_In (x : str) (xs : list str) : mem x xs = false <-> ~ In x xs.
Proof.
  rewrite <- mem_In. destruct (mem x xs); split; congruence.
Qed.

Lemma empty_check (text : str) :
  negb (truthy text) || negb (truthy (strip text)) = true <-> strip text = [].
Proof.
  rewrite orb_true_iff, !negb_true_iff, !truthy_false. split.
  - intros [-> | H]; [reflexivity | assumption].
  - auto.
Qed.

Lemma too_long_check (text : str) :
  (len text >? 8000)%Z = true <-> (len text > 8000)%Z.
Proof. rewrite Z.gtb_ltb, Z.ltb_lt. lia. Qed.

Lemma get_system_prompt_run (s : State) :
  _get_system_prompt s = (s, inr (instruction_for (model (self s)))).
Proof.
  unfold _get_system_prompt, instruction_for, bind, get_self, ret, mem.
  simpl. rewrite orb_false_r.
  destruct (eqb (model (self s)) (lit "gpt-3.5-turbo")); reflexivity.
Qed.

(** The handler turns every exception of the [try] body into
    [translate_failure]. *)
Ltac handler_cases e :=
  unfold translate_failure, bind, raise, ret;
  destruct (exc_status_code e) as [sc|]; [|reflexivity];
  destruct (sc =? 429)%Z; [reflexivity|];
  destruct (sc =? 401)%Z; [reflexivity|];
  destruct (sc >=? 500)%Z; reflexivity.

Lemma generate_title_empty (text : str) (s : State) :
  strip text = [] ->
  generate_title text s
  = (s, inl (Exception (ValidationError (lit "Input text cannot be empty.")))).
Proof.
  intros H. unfold generate_title.
  rewrite (proj2 (empty_check text) H). reflexivity.
Qed.

Lemma generate_title_too_long (text : str) (s : State) :
  strip text <> [] -> (len (strip text) > 8000)%Z ->
  generate_title text s
  = (s, inl (Exception (ValidationError (lit "Input text too long (max 8000 characters).")))).
Proof.
  intros Hne Hlen. unfold generate_title.
  destruct (negb (truthy text) || negb (truthy (strip text))) eqn:E.
  - apply empty_check in E. contradiction.
  - rewrite (proj2 (too_long_check (strip text)) Hlen). reflexivity.
Qed.

Lemma generate_title_valid (text : str) (s : State) :
  valid_input text ->
  generate_title text s
  = ({| self := self s;
        sent := sent s ++ [request_for (self s) (strip text)] |},
     result_of (self s)
       (upstream_answer (_client (self s)) (request_for (self s) (strip text)))).
Proof.
  intros [Hne Hlen]. unfold generate_title.
  destruct (negb (truthy text) || negb (truthy (strip text))) eqn:E.
  { apply empty_check in E. contradiction. }
  destruct (len (strip text) >? 8000)%Z eqn:L.
  { apply too_long_check in L. lia. }
  unfold try_except, request_for, result_of, empty_response_message.
  unfold bind at 1. unfold get_self at 1.
  destruct (mem (model (self s)) GPT5_MODELS) eqn:G.
  - unfold _generate_title_responses_api, bind at 1. unfold get_self at 1.
    unfold bind at 1. rewrite get_system_prompt_run.
    unfold bind at 1, call_responses_create, upstream_answer.
    destruct (responses_create _ _) as [[code| |e]|[[[|ch p]|]]]; cbn.
    + reflexivity.
    + reflexivity.
    + handler_cases e.
    + reflexivity.
    + reflexivity.
    + reflexivity.
  - unfold _generate_title_chat_api, bind at 1. unfold get_self at 1.
    unfold bind at 1. rewrite get_system_prompt_run.
    unfold bind at 1, call_chat_completions_create, upstream_answer.
    destruct (chat_completions_create _ _)
      as [[code| |e]|[[|[[[[|ch p]|]]] rest]]]; cbn.
    + reflexivity.
    + reflexivity.
    + handler_cases e.
    + reflexivity.
    + reflexivity.
    + reflexivity.
    + reflexivity.
Qed.

Lemma translate_failure_is_APIError (e : Exc) :
  exists msg, translate_failure e = APIError msg (Some e).
Proof.
  unfold translate_failure.
  destruct (exc_status_code e) as [sc|]; [|eauto].
  destruct (sc =? 429)%Z; [eauto|].
  destruct (sc =? 401)%Z; [eauto|].
  destruct (sc >=? 500)%Z; eauto.
Qed.

Lemma result_of_not_ValidationError (c : Client) (a : Answer) :
  ~ is_ValidationError (result_of c a).
Proof.
  intros [msg H]. unfold result_of in H.
  destruct a as [e|[[|ch p]|]| | |code];
    try discriminate;
    match type of H with
    | inl (Exception (translate_failure ?x)) = _ =>
        destruct (translate_failure_is_APIError x) as [m Hm];
        rewrite Hm in H; discriminate
    end.
Qed.

Lemma input_cases (text : str) :
  strip text = []
  \/ (strip text <> [] /\ (len (strip text) > 8000)%Z)
  \/ valid_input text.
Proof.
  unfold valid_input.
  destruct (strip text) as [|c r] eqn:E; [left; reflexivity|right].
  destruct (Z_gt_le_dec (len (c :: r)) 8000).
  - left. split; [discriminate | assumption].
  - right. split; [discriminate | assumption].
Qed.

(** A text that is not validated is refused before anything is sent. *)
Lemma generate_title_invalid (text : str) (s : State) :
  ~ valid_input text ->
  fst (generate_title text s) = s
  /\ is_ValidationError (snd (generate_title text s)).
Proof.
  intros Hn. destruct (input_cases text) as [He | [[Hne Hl] | Hv]].
  - rewrite (generate_title_empty text s He). split; [|eexists]; reflexivity.
  - rewrite (generate_title_too_long text s Hne Hl).
    split; [|eexists]; reflexivity.
  - contradiction.
Qed.

Lemma contains_app_r (a b needle : str) :
  contains b needle = true -> contains (a ++ b) needle = true.
Proof.
  intros H. induction a as [|x a IH]; [assumption|].
  simpl. rewrite IH. apply orb_true_r.
Qed.

Lemma class_A_full_instruction (m : str) :
  In m GPT5_MODELS -> instruction_for m = base_prompt.
Proof.
  intros H. simpl in H.
  destruct H as [<-|[<-|[<-|[]]]]; reflexivity.
Qed.

Lemma class_A_supported (m : str) : In m GPT5_MODELS -> In m SUPPORTED_MODELS.
Proof.
  intros H. simpl in H.
  destruct H as [<-|[<-|[<-|[]]]]; apply mem_In; reflexivity.
Qed.

Lemma Client_init_unsupported
    (new_OpenAI : (str -> option str) -> option str -> LibraryError + OpenAI)
    (environ : str -> option str) (openai_api_key : option str) (m : str) :
  ~ In m SUPPORTED_MODELS ->
  Client_init new_OpenAI environ openai_api_key m
  = inl (Exception (ValidationError
           (lit "Unsupported model '" ++ m ++ lit "'. Supported models: "
            ++ join (lit ", ") SUPPORTED_MODELS))).
Proof.
  intros H. unfold Client_init.
  rewrite (proj2 (mem_not_In _ _) H). reflexivity.
Qed.

Lemma Client_init_supported
    (new_OpenAI : (str -> option str) -> option str -> LibraryError + OpenAI)
    (environ : str -> option str) (openai_api_key : option str) (m : str) :
  In m SUPPORTED_MODELS ->
  Client_init new_OpenAI environ openai_api_key m
  = if truthy_opt (py_or openai_api_key (environ (lit "OPENAI_API_KEY")))
    then
      match new_OpenAI environ
              (py_or openai_api_key (environ (lit "OPENAI_API_KEY"))) with
      | inl e => inl (Exception (raised_by_library e))
      | inr client => inr {| model := m; _client := client |}
      end
    else inl (Exception (ValidationError
                (lit "OpenAI API key required. Provide it via openai_api_key parameter "
                 ++ lit "or set OPENAI_API_KEY environment variable."))).
Proof.
  intros H. unfold Client_init.
  rewrite (proj2 (mem_In _ _) H). cbv zeta.
  destruct (truthy_opt (py_or openai_api_key (environ (lit "OPENAI_API_KEY"))));
    reflexivity.
Qed.

Lemma truthy_py_or (a b : option str) :
  truthy_opt (py_or a b) = true
  <-> truthy_opt a = true \/ truthy_opt b = true.
Proof.
  unfold py_or. destruct (truthy_opt a) eqn:E.
  - rewrite E. tauto.
  - split; [auto|]. intros [H|H]; [discriminate|assumption].
Qed.

(** ** The properties of the specification *)

(** C1. For a validated input, when the upstream call raises a failure
    [e], [generate_title] raises an [APIError] (with [e] as its cause)
    chosen by the status code of [e]: 429 gives the rate-limit message,
    401 the invalid-key message, any status of 500 or more the
    server-error message, and every other failure (no status code, or a
    status such as 404 in none of the three classes) the generic message
    that wraps [str(e)]. *)
Theorem C1_failure_mapping (s : State) (text : str) (e : Exc) :
  valid_input text ->
  upstream_answer (_client (self s)) (request_for (self s) (strip text))
  = Raised e ->
  (exc_status_code e = Some 429%Z ->
   snd (generate_title text s)
   = inl (Exception (APIError (lit "Rate limit exceeded. Please try again later.") (Some e))))
  /\ (exc_status_code e = Some 401%Z ->
      snd (generate_title text s)
      = inl (Exception (APIError (lit "Invalid API key.") (Some e))))
  /\ (forall sc, exc_status_code e = Some sc -> (sc >= 500)%Z ->
      snd (generate_title text s)
      = inl (Exception (APIError (lit "OpenAI API server error. Please try again later.")
               (Some e))))
  /\ (exc_status_code e = None
      \/ (exists sc, exc_status_code e = Some sc
                     /\ sc <> 429%Z /\ sc <> 401%Z /\ (sc < 500)%Z) ->
      snd (generate_title text s)
      = inl (Exception (APIError (lit "Failed to generate title: " ++ exc_str e) (Some e)))).
Proof.
  intros Hv Hup. rewrite (generate_title_valid text s Hv), Hup.
  unfold snd, result_of, translate_failure.
  repeat split.
  - intros ->. reflexivity.
  - intros ->. reflexivity.
  - intros sc -> Hsc.
    destruct (Z.eqb_spec sc 429); [lia|].
    destruct (Z.eqb_spec sc 401); [lia|].
    destruct (Z.geb_spec sc 500); [reflexivity|lia].
  - intros [-> | [sc [-> [H1 [H2 H3]]]]]; [reflexivity|].
    destruct (Z.eqb_spec sc 429); [contradiction|].
    destruct (Z.eqb_spec sc 401); [contradiction|].
    destruct (Z.geb_spec sc 500); [lia|reflexivity].
Qed.

(** C2. For a validated input, a client whose model is in class A sends
    exactly one request, of the single-prompt shape: the full instruction
    and the stripped text in one prompt string, minimal reasoning effort,
    low verbosity, timeout 30. A client whose model is any other supported
    model sends exactly one request, of the two-message shape: the
    instruction as system message, the stripped text as user message, at
    most 50 completion tokens, temperature 0.3, timeout 30. *)
Theorem C2_call_shapes (s : State) (text : str) :
  valid_input text ->
  (class_A (model (self s)) ->
   sent (fst (generate_title text s))
   = sent s
     ++ [ResponsesCreate
           {| Responses.model := model (self s);
              Responses.input :=
                base_prompt ++ LF ++ LF
                ++ lit "Text to convert to title: " ++ strip text;
              Responses.reasoning := [(lit "effort", lit "minimal")];
              Responses.text := [(lit "verbosity", lit "low")];
              Responses.timeout := 30 |}])
  /\ (class_B (model (self s)) ->
      sent (fst (generate_title text s))
      = sent s
        ++ [ChatCompletionsCreate
              {| Chat.model := model (self s);
                 Chat.messages :=
                   [ {| Chat.role := lit "system";
                        Chat.content := instruction_for (model (self s)) |};
                     {| Chat.role := lit "user"; Chat.content := strip text |} ];
                 Chat.max_completion_tokens := 50;
                 Chat.temperature := 0.3;
                 Chat.timeout := 30 |}]).
Proof.
  intros Hv. rewrite (generate_title_valid text s Hv).
  unfold fst, sent at 1 3, request_for, class_A, class_B. split.
  - intros HA. rewrite (proj2 (mem_In _ _) HA).
    rewrite (class_A_full_instruction _ HA). reflexivity.
  - intros [_ HB]. rewrite (proj2 (mem_not_In _ _) HB). reflexivity.
Qed.

(** C3. [generate_title] raises a [ValidationError] exactly when the
    stripped text is empty (so also for a text of whitespace only) or has
    more than 8000 characters; a stripped length of exactly 8000 raises no
    [ValidationError], a stripped length of 8001 raises one. *)
Theorem C3_input_validation (s : State) (text : str) :
  (is_ValidationError (snd (generate_title text s))
   <-> strip text = [] \/ (len (strip text) > 8000)%Z)
  /\ (len (strip text) = 8000%Z ->
      ~ is_ValidationError (snd (generate_title text s)))
  /\ (len (strip text) = 8001%Z ->
      is_ValidationError (snd (generate_title text s))).
Proof.
  assert (Hiff : is_ValidationError (snd (generate_title text s))
                 <-> strip text = [] \/ (len (strip text) > 8000)%Z).
  { destruct (input_cases text) as [He | [[Hne Hl] | Hv]].
    - rewrite (generate_title_empty text s He). split; [auto|].
      intros _. eexists; reflexivity.
    - rewrite (generate_title_too_long text s Hne Hl). split; [auto|].
      intros _. eexists; reflexivity.
    - rewrite (generate_title_valid text s Hv). unfold snd. split.
      + intros H. exfalso. exact (result_of_not_ValidationError _ _ H).
      + destruct Hv as [Hne Hl]. intros [He | Hg]; [contradiction | lia]. }
  split; [exact Hiff|]. split.
  - intros Hl H. apply Hiff in H. destruct H as [He | Hg]; [|lia].
    rewrite He in Hl. discriminate.
  - intros Hl. apply Hiff. right. lia.
Qed.

(** C4, as the code has it. For a validated input and a non-empty upstream
    text payload, [generate_title] returns the payload stripped of
    surrounding whitespace, then of every leading and trailing
    double-quote character, then of every leading and trailing
    single-quote character; the payload [Test Title] gives [Test Title]
    and the payload [Quoted Title] between double quotes gives
    [Quoted Title]. *)
Theorem C4_title_cleaning (s : State) (text payload : str) :
  valid_input text ->
  payload <> [] ->
  upstream_answer (_client (self s)) (request_for (self s) (strip text))
  = Payload (Some payload) ->
  snd (generate_title text s)
  = inr (strip_chars SQUOTE (strip_chars DQUOTE (strip payload)))
  /\ strip_chars SQUOTE (strip_chars DQUOTE (strip (lit "Test Title")))
     = lit "Test Title"
  /\ strip_chars SQUOTE
       (strip_chars DQUOTE (strip (DQUOTE ++ lit "Quoted Title" ++ DQUOTE)))
     = lit "Quoted Title".
Proof.
  intros Hv Hp Hup. rewrite (generate_title_valid text s Hv), Hup.
  destruct payload as [|ch p]; [contradiction|].
  repeat split.
Qed.

(** C5. For a validated input, when the upstream call succeeds with an
    absent or empty text payload, [generate_title] raises an [APIError]
    whose message mentions an empty response; it does not return a blank
    title. *)
Theorem C5_empty_payload (s : State) (text : str) (payload : option str) :
  valid_input text ->
  upstream_answer (_client (self s)) (request_for (self s) (strip text))
  = Payload payload ->
  payload = None \/ payload = Some [] ->
  (exists msg cause,
      snd (generate_title text s) = inl (Exception (APIError msg cause))
      /\ contains msg (lit "empty response") = true)
  /\ snd (generate_title text s) <> inr [].
Proof.
  intros Hv Hup Hp. rewrite (generate_title_valid text s Hv), Hup.
  assert (R : result_of (self s) (Payload payload)
              = inl (Exception (APIError
                       (lit "Failed to generate title: "
                        ++ empty_response_message (self s))
                       (Some (APIError (empty_response_message (self s)) None))))).
  { destruct Hp as [-> | ->]; reflexivity. }
  unfold snd. rewrite R. split; [|discriminate].
  do 2 eexists. split; [reflexivity|].
  apply contains_app_r. unfold empty_response_message.
  destruct (mem (model (self s)) GPT5_MODELS); [|reflexivity].
  apply contains_app_r, contains_app_r. reflexivity.
Qed.

(** C6. [_get_system_prompt] leaves the client and the list of sent
    requests as they are, raises nothing, and returns a string fixed by
    the model alone: the simplified instruction for [gpt-3.5-turbo], the
    full instruction for every other supported model, two different
    strings. Classes A and B are disjoint and their union is the
    supported set. *)
Theorem C6_prompt_builder :
  (forall s : State,
      _get_system_prompt s = (s, inr (instruction_for (model (self s)))))
  /\ instruction_for (lit "gpt-3.5-turbo") = simple_prompt
  /\ (forall m : str,
         In m SUPPORTED_MODELS -> m <> lit "gpt-3.5-turbo" ->
         instruction_for m = base_prompt)
  /\ simple_prompt <> base_prompt
  /\ (forall m : str, ~ (class_A m /\ class_B m))
  /\ (forall m : str, In m SUPPORTED_MODELS <-> class_A m \/ class_B m).
Proof.
  split; [exact get_system_prompt_run|].
  split; [reflexivity|].
  split.
  { intros m _ Hm. unfold instruction_for.
    destruct (eqb m (lit "gpt-3.5-turbo")) eqn:E; [|reflexivity].
    apply eqb_eq in E. contradiction. }
  split.
  { intros H. apply (f_equal (@List.length N)) in H.
    vm_compute in H. discriminate. }
  unfold class_A, class_B. split.
  - intros m [HA [_ HB]]. contradiction.
  - intros m. split.
    + intros HS. destruct (mem m GPT5_MODELS) eqn:G.
      * left. apply mem_In. assumption.
      * right. split; [assumption | apply mem_not_In; assumption].
    + intros [HA | [HS _]]; [apply class_A_supported|]; assumption.
Qed.

(** C7, as the code has it. Construction with a model outside the
    supported set raises a [ValidationError], whatever the credential.
    Construction with a supported model and an available credential
    raises no [ValidationError]: it hands the credential to the
    constructor of the package and returns a client with that model when
    the constructor returns one; when the constructor raises, its
    exception leaves [__init__]. *)
Theorem C7_model_validation
    (new_OpenAI : (str -> option str) -> option str -> LibraryError + OpenAI)
    (environ : str -> option str) (openai_api_key : option str) (m : str) :
  (~ In m SUPPORTED_MODELS ->
   is_ValidationError (Client_init new_OpenAI environ openai_api_key m))
  /\ (In m SUPPORTED_MODELS ->
      credential_available environ openai_api_key ->
      ~ is_ValidationError (Client_init new_OpenAI environ openai_api_key m)
      /\ (forall client,
             new_OpenAI environ
               (py_or openai_api_key (environ (lit "OPENAI_API_KEY")))
             = inr client ->
             Client_init new_OpenAI environ openai_api_key m
             = inr {| model := m; _client := client |})
      /\ (forall e,
             new_OpenAI environ
               (py_or openai_api_key (environ (lit "OPENAI_API_KEY")))
             = inl e ->
             Client_init new_OpenAI environ openai_api_key m
             = inl (Exception (raised_by_library e)))).
Proof.
  unfold credential_available. split.
  - intros H. rewrite (Client_init_unsupported _ _ _ _ H).
    eexists; reflexivity.
  - intros H Hc. rewrite (Client_init_supported _ _ _ _ H).
    rewrite (proj2 (truthy_py_or _ _) Hc).
    split; [|split].
    + intros [msg Hm].
      destruct (new_OpenAI environ _) as [e|client]; discriminate.
    + intros client ->. reflexivity.
    + intros e ->. reflexivity.
Qed.

(** C8, as the code has it. For a supported model, construction raises a
    [ValidationError] exactly when no credential is available, neither
    from the argument nor from the environment. Otherwise it hands the
    credential (the argument, when that is a non-empty string, or else
    the value of the environment) to the constructor of the package, and
    returns the client configured with the model when the constructor
    returns one; when the constructor raises, its exception leaves
    [__init__]. *)
Theorem C8_credential
    (new_OpenAI : (str -> option str) -> option str -> LibraryError + OpenAI)
    (environ : str -> option str) (openai_api_key : option str) (m : str) :
  In m SUPPORTED_MODELS ->
  (is_ValidationError (Client_init new_OpenAI environ openai_api_key m)
   <-> ~ credential_available environ openai_api_key)
  /\ (credential_available environ openai_api_key ->
      (forall client,
          new_OpenAI environ
            (if truthy_opt openai_api_key then openai_api_key
             else environ (lit "OPENAI_API_KEY"))
          = inr client ->
          Client_init new_OpenAI environ openai_api_key m
          = inr {| model := m; _client := client |})
      /\ (forall e,
             new_OpenAI environ
               (if truthy_opt openai_api_key then openai_api_key
                else environ (lit "OPENAI_API_KEY"))
             = inl e ->
             Client_init new_OpenAI environ openai_api_key m
             = inl (Exception (raised_by_library e)))).
Proof.
  intros H. rewrite (Client_init_supported _ _ _ _ H).
  pose proof (truthy_py_or openai_api_key (environ (lit "OPENAI_API_KEY")))
    as T.
  fold (credential_available environ openai_api_key) in T.
  unfold py_or in *.
  destruct (truthy_opt
              (if truthy_opt openai_api_key then openai_api_key
               else environ (lit "OPENAI_API_KEY"))) eqn:V.
  - split; [split|].
    + intros [msg Hm].
      destruct (new_OpenAI environ _) as [e|client]; discriminate.
    + intros Hn. exfalso. apply Hn, T. reflexivity.
    + intros _. split.
      * intros client ->. reflexivity.
      * intros e ->. reflexivity.
  - split.
    + split; [|intros _; eexists; reflexivity].
      intros _ Hc. apply T in Hc. discriminate.
    + intros Hc. apply T in Hc. discriminate.
Qed.

(** C9. [generate_title] leaves the configuration as it found it: after
    the call, whether it returned a title or raised, the [model] and the
    [_client] of the client are those before the call. *)
Theorem C9_configuration_unchanged (s : State) (text : str) :
  self (fst (generate_title text s)) = self s
  /\ model (self (fst (generate_title text s))) = model (self s)
  /\ _client (self (fst (generate_title text s))) = _client (self s).
Proof.
  assert (H : self (fst (generate_title text s)) = self s).
  { destruct (input_cases text) as [He | [[Hne Hl] | Hv]].
    - rewrite (generate_title_empty text s He). reflexivity.
    - rewrite (generate_title_too_long text s Hne Hl). reflexivity.
    - rewrite (generate_title_valid text s Hv). reflexivity. }
  rewrite H. repeat split.
Qed.

(** C10, as the code has it. An explicit credential that is the empty
    string is treated as an absent one: construction gives what it gives
    without the argument. With a supported model and a non-empty value of
    the environment it hands that value to the constructor of the
    package, and returns the client when the constructor returns one
    (when the constructor raises, its exception leaves [__init__]); it
    raises a [ValidationError] when the variable is unset or empty. *)
Theorem C10_empty_key_falls_back
    (new_OpenAI : (str -> option str) -> option str -> LibraryError + OpenAI)
    (environ : str -> option str) (m : str) :
  Client_init new_OpenAI environ (Some []) m
  = Client_init new_OpenAI environ None m
  /\ (forall (k : str) (client : OpenAI),
         In m SUPPORTED_MODELS ->
         environ (lit "OPENAI_API_KEY") = Some k -> k <> [] ->
         new_OpenAI environ (Some k) = inr client ->
         Client_init new_OpenAI environ (Some []) m
         = inr {| model := m; _client := client |})
  /\ (forall (k : str) (e : LibraryError),
         In m SUPPORTED_MODELS ->
         environ (lit "OPENAI_API_KEY") = Some k -> k <> [] ->
         new_OpenAI environ (Some k) = inl e ->
         Client_init new_OpenAI environ (Some []) m
         = inl (Exception (raised_by_library e)))
  /\ (environ (lit "OPENAI_API_KEY") = None
      \/ environ (lit "OPENAI_API_KEY") = Some [] ->
      is_ValidationError (Client_init new_OpenAI environ (Some []) m)).
Proof.
  split; [reflexivity|]. split; [|split].
  - intros k client H Hk Hne Hc.
    rewrite (Client_init_supported _ _ _ _ H).
    unfold py_or. cbn [truthy_opt truthy]. rewrite Hk.
    destruct k as [|ch k]; [contradiction|].
    cbn [truthy_opt truthy]. rewrite Hc. reflexivity.
  - intros k e H Hk Hne Hc.
    rewrite (Client_init_supported _ _ _ _ H).
    unfold py_or. cbn [truthy_opt truthy]. rewrite Hk.
    destruct k as [|ch k]; [contradiction|].
    cbn [truthy_opt truthy]. rewrite Hc. reflexivity.
  - intros Hk. destruct (mem m SUPPORTED_MODELS) eqn:S.
    + apply mem_In in S. rewrite (Client_init_supported _ _ _ _ S).
      unfold py_or. cbn [truthy_opt truthy].
      destruct Hk as [-> | ->]; eexists; reflexivity.
    + apply mem_not_In in S. rewrite (Client_init_unsupported _ _ _ _ S).
      eexists; reflexivity.
Qed.

(** ** Further properties of [core.py] *)

Lemma lstrip_by_id (p : N -> bool) (s : str) :
  (forall c r, s = c :: r -> p c = false) -> lstrip_by p s = s.
Proof.
  destruct s as [|c r]; [reflexivity|].
  intros H. simpl. rewrite (H c r eq_refl). reflexivity.
Qed.

Lemma strip_by_idempotent (p : N -> bool) (s : str) :
  strip_by p (strip_by p s) = strip_by p s.
Proof.
  set (t := strip_by p s). unfold strip_by at 1, rstrip_by.
  rewrite (lstrip_by_id p t).
  - rewrite (lstrip_by_id p (rev t)); [apply rev_involutive|].
    intros c r H. apply (strip_by_last p s c (rev r)).
    fold t. rewrite <- (rev_involutive t), H. reflexivity.
  - intros c r H. exact (strip_by_first p s c r H).
Qed.

Lemma valid_input_strip (text : str) :
  valid_input (strip text) <-> valid_input text.
Proof.
  unfold valid_input, strip. rewrite strip_by_idempotent. tauto.
Qed.

Lemma startswith_app (a b : str) : startswith (a ++ b) a = true.
Proof.
  induction a as [|c a IH]; [destruct b; reflexivity|].
  simpl. rewrite N.eqb_refl, IH. reflexivity.
Qed.

Lemma forallb_weaken (p q : N -> bool) (l : str) :
  (forall c, p c = true -> q c = true) ->
  forallb p l = true -> forallb q l = true.
Proof.
  intros H. rewrite !forallb_forall. auto.
Qed.

(** X1. Surrounding whitespace of the input does not matter:
    [generate_title] gives for a text what it gives for the stripped
    text, the same result and the same requests. *)
Theorem X1_input_whitespace_irrelevant (s : State) (text : str) :
  generate_title (strip text) s = generate_title text s.
Proof.
  assert (I : strip (strip text) = strip text) by apply strip_by_idempotent.
  destruct (input_cases text) as [He | [[Hne Hl] | Hv]].
  - rewrite (generate_title_empty text s He).
    apply generate_title_empty. rewrite I. assumption.
  - rewrite (generate_title_too_long text s Hne Hl).
    apply generate_title_too_long; rewrite I; assumption.
  - rewrite (generate_title_valid text s Hv).
    rewrite (generate_title_valid (strip text) s
               (proj2 (valid_input_strip text) Hv)).
    rewrite I. reflexivity.
Qed.


(** X3. A call of [generate_title] sends nothing when the text fails
    validation and exactly one request otherwise; the requests sent
    before stay as they are, and no failure is retried. *)
Theorem X3_at_most_one_request (s : State) (text : str) :
  exists l,
    sent (fst (generate_title text s)) = sent s ++ l
    /\ (valid_input text -> List.length l = 1%nat)
    /\ (~ valid_input text -> l = []).
Proof.
  destruct (input_cases text) as [He | [[Hne Hl] | Hv]].
  - rewrite (generate_title_empty text s He). exists []. simpl.
    rewrite app_nil_r. repeat split; auto.
    intros [Hne _]. contradiction.
  - rewrite (generate_title_too_long text s Hne Hl). exists []. simpl.
    rewrite app_nil_r. repeat split; auto.
    intros [_ Hle]. lia.
  - rewrite (generate_title_valid text s Hv).
    exists [request_for (self s) (strip text)].
    repeat split; auto. intros Hn. contradiction.
Qed.

(** X4. A returned title is a contiguous part of the upstream payload:
    only whitespace and quote characters are removed, before and after
    it, and the title neither starts nor ends with a single quote. *)
Theorem X4_title_within_payload (s : State) (text payload : str) :
  valid_input text ->
  payload <> [] ->
  upstream_answer (_client (self s)) (request_for (self s) (strip text))
  = Payload (Some payload) ->
  exists before title after,
    snd (generate_title text s) = inr title
    /\ payload = before ++ title ++ after
    /\ forallb is_trimmed before = true
    /\ forallb is_trimmed after = true
    /\ (forall c r, title = c :: r -> c <> 39%N)
    /\ (forall c r, title = r ++ [c] -> c <> 39%N).
Proof.
  intros Hv Hp Hup. rewrite (generate_title_valid text s Hv), Hup.
  destruct payload as [|ch p]; [contradiction|].
  unfold snd, result_of, clean_title. set (payload := ch :: p).
  unfold strip_chars, strip.
  set (pd := fun c => existsb (N.eqb c) DQUOTE).
  set (ps := fun c => existsb (N.eqb c) SQUOTE).
  destruct (strip_by_split is_whitespace payload) as [b1 [a1 [E1 [B1 A1]]]].
  destruct (strip_by_split pd (strip_by is_whitespace payload))
    as [b2 [a2 [E2 [B2 A2]]]].
  destruct (strip_by_split ps (strip_by pd (strip_by is_whitespace payload)))
    as [b3 [a3 [E3 [B3 A3]]]].
  set (title := strip_by ps (strip_by pd (strip_by is_whitespace payload))) in *.
  assert (W : forall c, is_whitespace c = true -> is_trimmed c = true).
  { intros c H. unfold is_trimmed. rewrite H. reflexivity. }
  assert (D : forall c, pd c = true -> is_trimmed c = true).
  { intros c H. unfold pd in H. simpl in H. rewrite orb_false_r in H.
    unfold is_trimmed, is_quote. rewrite H. apply orb_true_r. }
  assert (S : forall c, ps c = true -> is_trimmed c = true).
  { intros c H. unfold ps in H. simpl in H. rewrite orb_false_r in H.
    unfold is_trimmed, is_quote. rewrite H, !orb_true_r. reflexivity. }
  exists (b1 ++ b2 ++ b3), title, (a3 ++ a2 ++ a1).
  split; [reflexivity|]. split.
  { rewrite E1 at 1. rewrite E2 at 1. rewrite E3 at 1.
    rewrite <- !app_assoc. reflexivity. }
  split.
  { rewrite !forallb_app, (forallb_weaken _ _ _ W B1),
      (forallb_weaken _ _ _ D B2), (forallb_weaken _ _ _ S B3). reflexivity. }
  split.
  { rewrite !forallb_app, (forallb_weaken _ _ _ W A1),
      (forallb_weaken _ _ _ D A2), (forallb_weaken _ _ _ S A3). reflexivity. }
  split.
  - intros c r H ->. apply strip_by_first in H. discriminate.
  - intros c r H ->. apply strip_by_last in H. discriminate.
Qed.

(** X5. [Client.__init__] either raises a [ValidationError], or the
    model is supported and there is a non-empty credential, the explicit
    argument when that is non-empty and the value of [OPENAI_API_KEY]
    otherwise: then it calls the constructor of the package with that
    credential, and returns the client with the requested model around
    what the constructor returns, or lets the exception of the
    constructor out. *)
Theorem X5_constructed_client
    (new_OpenAI : (str -> option str) -> option str -> LibraryError + OpenAI)
    (environ : str -> option str) (openai_api_key : option str) (m : str) :
  is_ValidationError (Client_init new_OpenAI environ openai_api_key m)
  \/ (In m SUPPORTED_MODELS
      /\ exists credential,
           truthy_opt credential = true
           /\ (truthy_opt openai_api_key = true -> credential = openai_api_key)
           /\ (truthy_opt openai_api_key = false ->
               credential = environ (lit "OPENAI_API_KEY"))
           /\ match new_OpenAI environ credential with
              | inr client =>
                  Client_init new_OpenAI environ openai_api_key m
                  = inr {| model := m; _client := client |}
              | inl e =>
                  Client_init new_OpenAI environ openai_api_key m
                  = inl (Exception (raised_by_library e))
              end).
Proof.
  destruct (mem m SUPPORTED_MODELS) eqn:S.
  - apply mem_In in S. rewrite (Client_init_supported _ _ _ _ S).
    destruct (truthy_opt
                (py_or openai_api_key (environ (lit "OPENAI_API_KEY")))) eqn:K.
    + right. split; [assumption|].
      exists (py_or openai_api_key (environ (lit "OPENAI_API_KEY"))).
      split; [assumption|].
      split; [unfold py_or; intros ->; reflexivity|].
      split; [unfold py_or; intros ->; reflexivity|].
      destruct (new_OpenAI environ _); reflexivity.
    + left. eexists; reflexivity.
  - apply mem_not_In in S. rewrite (Client_init_unsupported _ _ _ _ S).
    left. eexists; reflexivity.
Qed.

(** X6. The two checks of [Client.__init__] come before the constructor
    of the package, the model first: with an unsupported model the
    outcome does not depend on the credential, on the environment or on
    the constructor, and without a credential it does not depend on the
    constructor, which is not called. *)
Theorem X6_construction_precedence
    (new1 new2 : (str -> option str) -> option str -> LibraryError + OpenAI)
    (env1 env2 : str -> option str) (key1 key2 : option str) (m : str) :
  (~ In m SUPPORTED_MODELS ->
   Client_init new1 env1 key1 m = Client_init new2 env2 key2 m)
  /\ (~ credential_available env1 key1 ->
      Client_init new1 env1 key1 m = Client_init new2 env1 key1 m).
Proof.
  split.
  - intros H. rewrite !(Client_init_unsupported _ _ _ _ H). reflexivity.
  - intros Hn. unfold Client_init.
    destruct (negb (mem m SUPPORTED_MODELS)); [reflexivity|]. cbv zeta.
    destruct (truthy_opt (py_or key1 (env1 (lit "OPENAI_API_KEY")))) eqn:K.
    + exfalso. apply Hn. apply truthy_py_or. assumption.
    + reflexivity.
Qed.

(** ** Properties of [cli.py] *)

(** What leaves [generate_title]: a [TitleCraftError], or what cut the
    upstream call short. *)
Lemma generate_title_signal (s : State) (text : str) (sig : Signal) :
  snd (generate_title text s) = inl sig ->
  (exists e, sig = Exception e /\ is_TitleCraftError e = true)
  \/ (valid_input text
      /\ upstream_answer (_client (self s)) (request_for (self s) (strip text))
         = cut_short sig
      /\ (sig = KeyboardInterrupt \/ exists code, sig = SystemExit code)).
Proof.
  destruct (input_cases text) as [He | [[Hne Hl] | Hv]].
  - rewrite (generate_title_empty text s He). intros H.
    injection H as <-. left. eexists; split; reflexivity.
  - rewrite (generate_title_too_long text s Hne Hl). intros H.
    injection H as <-. left. eexists; split; reflexivity.
  - rewrite (generate_title_valid text s Hv). unfold snd, result_of.
    intros H.
    destruct (upstream_answer _ _) as [x|[[|ch p]|]| | |code] eqn:U;
      try discriminate;
      try (match type of H with
           | inl (Exception (translate_failure ?x)) = _ =>
               destruct (translate_failure_is_APIError x) as [msg Hm];
               rewrite Hm in H; injection H as <-; left;
               eexists; split; reflexivity
           end).
    + injection H as <-. right. split; [assumption|].
      split; [reflexivity | left; reflexivity].
    + injection H as <-. right. split; [assumption|].
      split; [reflexivity | right; eexists; reflexivity].
Qed.

Lemma generate_title_raises_TitleCraftError (s : State) (text : str) (e : Exc) :
  snd (generate_title text s) = inl (Exception e) ->
  is_TitleCraftError e = true.
Proof.
  intros H. destruct (generate_title_signal s text _ H)
    as [[e' [He Ht]] | [_ [_ [Hk | [code Hc]]]]]; try discriminate.
  injection He as ->. assumption.
Qed.

(** An upstream call is cut short by [SystemExit] only when an entry
    point of the package raises it. *)
Lemma upstream_answer_exited (cl : OpenAI) (call : Call) (code : Z) :
  upstream_answer cl call = Exited code ->
  (exists k, responses_create cl k = inl (SystemExit code))
  \/ (exists k, chat_completions_create cl k = inl (SystemExit code)).
Proof.
  unfold upstream_answer. destruct call as [k|k].
  - destruct (responses_create cl k) as [[c| |e]|r] eqn:E; try discriminate.
    intros H. injection H as ->. left. exists k. assumption.
  - destruct (chat_completions_create cl k) as [[c| |e]|r] eqn:E;
      try discriminate.
    + intros H. injection H as ->. right. exists k. assumption.
    + destruct (Chat.choices r); discriminate.
Qed.

Lemma generate_title_sent (s : State) (text : str) :
  exists l,
    sent (fst (generate_title text s)) = sent s ++ l
    /\ (List.length l <= 1)%nat
    /\ (forall title, snd (generate_title text s) = inr title ->
        List.length l = 1%nat).
Proof.
  destruct (input_cases text) as [He | [[Hne Hl] | Hv]].
  - rewrite (generate_title_empty text s He). exists []. simpl.
    rewrite app_nil_r. repeat split; [lia | discriminate].
  - rewrite (generate_title_too_long text s Hne Hl). exists []. simpl.
    rewrite app_nil_r. repeat split; [lia | discriminate].
  - rewrite (generate_title_valid text s Hv).
    exists [request_for (self s) (strip text)]. simpl. repeat split. lia.
Qed.

Section CliProperties.

Variable new_OpenAI :
  (str -> option str) -> option str -> LibraryError + OpenAI.
Variable os_getenv : str -> option str.
Variable sys_stdin_read : Signal + str.
Variable format_help : str.
Variable format_exc : Exc -> str.

Local Abbreviation run_main :=
  (main new_OpenAI os_getenv sys_stdin_read format_help format_exc).
Local Abbreviation run_try := (run_with new_OpenAI os_getenv format_exc).
Local Abbreviation construction args :=
  (Client_init new_OpenAI os_getenv (args_api_key args) (args_model args)).

(** The three [except] clauses of [main], on a signal. *)
Lemma except_clauses (args : Namespace) (sig : Signal) (w : Process) :
  match sig with
  | SystemExit _ => io_raise sig
  | KeyboardInterrupt =>
      io_bind (print_stderr (LF ++ lit "Operation cancelled."))
        (fun _ => sys_exit 1)
  | Exception e =>
      if is_TitleCraftError e then
        io_bind (print_stderr (lit "Error: " ++ exc_str e))
          (fun _ => sys_exit 1)
      else
        io_bind (print_stderr (lit "Unexpected error: " ++ exc_str e))
          (fun _ =>
             io_bind (if args_verbose args then write_stderr (format_exc e)
                      else io_ret tt)
               (fun _ => sys_exit 1))
  end w
  = handled format_exc args sig w.
Proof.
  destruct sig as [code| |e]; try reflexivity.
  unfold handled, report_text.
  destruct (is_TitleCraftError e); [reflexivity|].
  destruct (args_verbose args); [|reflexivity].
  unfold io_bind, print_stderr, write_stderr, sys_exit, io_raise.
  cbn [stdout stderr requests]. rewrite <- app_assoc. reflexivity.
Qed.

(** With a text to work on, [main] is the run of its [try] block. *)
Lemma main_run_with (args : Namespace) (text : str) (w : Process) :
  input_text sys_stdin_read args = Some text ->
  run_main args w = run_try args text w.
Proof.
  intros Ht.
  assert (Hsel :
    (if args_stdin args then
       io_bind (read_stdin sys_stdin_read)
         (fun text0 =>
            if negb (truthy text0) then
              io_bind (print_stderr (lit "Error: No input provided via stdin."))
                (fun _ => sys_exit 1)
            else io_ret text0)
     else
       match args_text args with
       | Some ((_ :: _) as text0) => io_ret text0
       | _ =>
           io_bind (print_stderr (lit "Error: No text provided."))
             (fun _ => io_bind (write_stdout format_help) (fun _ => sys_exit 1))
       end) w = (w, inr text)).
  { unfold input_text in Ht. destruct (args_stdin args).
    - unfold read_stdin, io_bind, io_try, io_ret.
      destruct sys_stdin_read as [sig|content]; [discriminate|].
      destruct (truthy (strip content)) eqn:T; [|discriminate].
      injection Ht as <-. reflexivity.
    - destruct (args_text args) as [[|c r]|]; try discriminate.
      simpl in Ht. injection Ht as <-. reflexivity. }
  unfold main. unfold io_bind at 1. rewrite Hsel.
  unfold run_with, io_try, verbose_log, using_model_line, generating_line.
  unfold io_bind at 1.
  assert (Hv1 :
    (if args_verbose args
     then print_stderr (lit "Using model: " ++ args_model args)
     else io_ret tt) w
    = (if args_verbose args
       then log w (lit "Using model: " ++ args_model args) else w, inr tt)).
  { destruct (args_verbose args); reflexivity. }
  rewrite Hv1. set (w1 := if args_verbose args then _ else w).
  unfold io_bind at 1, construct.
  destruct (Client_init new_OpenAI os_getenv (args_api_key args)
              (args_model args)) as [sig|client] eqn:C.
  { apply except_clauses. }
  unfold io_bind at 1.
  assert (Hv2 :
    (if args_verbose args
     then print_stderr (lit "Generating title for " ++ str_of_int (len text)
                        ++ lit " characters of text...")
     else io_ret tt) w1
    = (if args_verbose args
       then log w1 (lit "Generating title for " ++ str_of_int (len text)
                    ++ lit " characters of text...") else w1, inr tt)).
  { destruct (args_verbose args); reflexivity. }
  rewrite Hv2. set (w2 := if args_verbose args then log w1 _ else w1).
  unfold io_bind at 1, call_method.
  destruct (generate_title text {| self := client; sent := requests w2 |})
    as [s' [sig|title]] eqn:G.
  - apply except_clauses.
  - reflexivity.
Qed.

(** Without a text, [main] stops before its [try] block. *)
Lemma main_without_text (args : Namespace) (w : Process) :
  input_text sys_stdin_read args = None ->
  run_main args w
  = if args_stdin args then
      match sys_stdin_read with
      | inr _ =>
          (log w (lit "Error: No input provided via stdin."),
           inl (SystemExit 1))
      | inl KeyboardInterrupt =>
          (log w (LF ++ lit "Operation cancelled."), inl (SystemExit 1))
      | inl sig => (w, inl sig)
      end
    else
      ({| stdout := stdout w ++ format_help;
          stderr := stderr w ++ lit "Error: No text provided." ++ LF;
          requests := requests w |}, inl (SystemExit 1)).
Proof.
  unfold input_text, main. intros Ht. unfold io_bind at 1.
  destruct (args_stdin args).
  - unfold read_stdin, io_bind, io_try, io_ret.
    destruct sys_stdin_read as [[code| |e]|content]; try reflexivity.
    destruct (truthy (strip content)); [discriminate|]. reflexivity.
  - destruct (args_text args) as [[|c r]|]; try discriminate; reflexivity.
Qed.

Lemma input_text_with_verbose (b : bool) (args : Namespace) :
  input_text sys_stdin_read (with_verbose b args)
  = input_text sys_stdin_read args.
Proof. reflexivity. Qed.

Lemma input_text_cases (args : Namespace) :
  input_text sys_stdin_read args = None
  \/ exists text, input_text sys_stdin_read args = Some text.
Proof. destruct (input_text sys_stdin_read args); eauto. Qed.

(** The run of the [try] block, by what the construction and the call of
    [generate_title] give. *)
Lemma run_try_construction_fails (args : Namespace) (text : str) (w : Process)
    (sig : Signal) :
  construction args = inl sig ->
  run_try args text w
  = ({| stdout := stdout w;
        stderr := stderr w ++ verbose_text args (using_model_line args)
                  ++ report_text format_exc args sig;
        requests := requests w |}, exit_of sig).
Proof.
  intros C. unfold run_with. rewrite C.
  unfold handled, exit_of, verbose_log, verbose_text, log.
  destruct w as [out err reqs].
  destruct sig as [code| |e]; destruct (args_verbose args);
    cbn [stdout stderr requests report_text];
    rewrite ?app_nil_r, ?app_nil_l, <- ?app_assoc; reflexivity.
Qed.

Lemma run_try_requests (args : Namespace) (text : str) (w : Process) :
  requests
    (verbose_log args (verbose_log args w (using_model_line args))
       (generating_line text)) = requests w.
Proof. unfold verbose_log. destruct (args_verbose args); reflexivity. Qed.

Lemma run_try_title (args : Namespace) (text : str) (w : Process)
    (client : Client) (s' : State) (title : str) :
  construction args = inr client ->
  generate_title text {| self := client; sent := requests w |}
  = (s', inr title) ->
  run_try args text w
  = ({| stdout := stdout w ++ title ++ LF;
        stderr := stderr w ++ verbose_text args (using_model_line args)
                  ++ verbose_text args (generating_line text);
        requests := sent s' |}, inr tt).
Proof.
  intros C G. unfold run_with. rewrite C. cbv zeta.
  rewrite run_try_requests, G.
  unfold verbose_log, verbose_text, log. destruct w as [out err reqs].
  destruct (args_verbose args); cbn [stdout stderr requests];
    rewrite ?app_nil_r, <- ?app_assoc; reflexivity.
Qed.

Lemma run_try_signal (args : Namespace) (text : str) (w : Process)
    (client : Client) (s' : State) (sig : Signal) :
  construction args = inr client ->
  generate_title text {| self := client; sent := requests w |}
  = (s', inl sig) ->
  run_try args text w
  = ({| stdout := stdout w;
        stderr := stderr w ++ verbose_text args (using_model_line args)
                  ++ verbose_text args (generating_line text)
                  ++ report_text format_exc args sig;
        requests := sent s' |}, exit_of sig).
Proof.
  intros C G. unfold run_with. rewrite C. cbv zeta.
  rewrite run_try_requests, G.
  unfold handled, exit_of, verbose_log, verbose_text, log.
  destruct w as [out err reqs].
  destruct sig as [code| |e]; destruct (args_verbose args);
    cbn [stdout stderr requests report_text];
    rewrite ?app_nil_r, ?app_nil_l, <- ?app_assoc; reflexivity.
Qed.

(** [Client.__init__] raises exceptions only. *)
Lemma construction_raises_exception (args : Namespace) (sig : Signal) :
  construction args = inl sig -> exists e, sig = Exception e.
Proof.
  unfold Client_init.
  destruct (negb (mem (args_model args) SUPPORTED_MODELS)).
  - intros H. injection H as <-. eexists; reflexivity.
  - cbv zeta.
    destruct (negb (truthy_opt
                      (py_or (args_api_key args)
                         (os_getenv (lit "OPENAI_API_KEY"))))).
    + intros H. injection H as <-. eexists; reflexivity.
    + destruct (new_OpenAI os_getenv _) as [e|client]; [|discriminate].
      intros H. injection H as <-. eexists; reflexivity.
Qed.

(** X7. [main] ends normally or with exit status 1. When reading the
    standard input raises nothing but [KeyboardInterrupt] and the upstream
    calls raise no [SystemExit], whatever else the constructor of the
    package and the upstream calls return or raise (any exception, a
    [KeyboardInterrupt]) ends in one of the three [except] clauses, and
    each of them exits with status 1. *)
Theorem X7_main_exit_status (args : Namespace) (w : Process) :
  (forall sig, sys_stdin_read = inl sig -> sig = KeyboardInterrupt) ->
  (forall cl k code, responses_create cl k <> inl (SystemExit code)) ->
  (forall cl k code, chat_completions_create cl k <> inl (SystemExit code)) ->
  snd (run_main args w) = inr tt
  \/ snd (run_main args w) = inl (SystemExit 1).
Proof.
  intros Hs Hr Hc. destruct (input_text_cases args) as [Hn | [text Ht]].
  - rewrite (main_without_text args w Hn). right.
    destruct (args_stdin args); [|reflexivity].
    destruct sys_stdin_read as [sig|content]; [|reflexivity].
    rewrite (Hs sig eq_refl). reflexivity.
  - rewrite (main_run_with args text w Ht).
    destruct (construction args) as [sig|client] eqn:C.
    { rewrite (run_try_construction_fails args text w sig C).
      destruct (construction_raises_exception args sig C) as [e ->].
      right. reflexivity. }
    destruct (generate_title text {| self := client; sent := requests w |})
      as [s' [sig|title]] eqn:G.
    + rewrite (run_try_signal args text w client s' sig C G). right.
      assert (G' : snd (generate_title text
                          {| self := client; sent := requests w |}) = inl sig).
      { rewrite G. reflexivity. }
      destruct (generate_title_signal _ _ _ G')
        as [[e [-> _]] | [_ [U [-> | [code ->]]]]]; try reflexivity.
      exfalso. cbn [cut_short] in U.
      destruct (upstream_answer_exited _ _ _ U) as [[k Hk] | [k Hk]].
      * exact (Hr _ _ _ Hk).
      * exact (Hc _ _ _ Hk).
    + rewrite (run_try_title args text w client s' title C G).
      left. reflexivity.
Qed.

(** X8. When [main] ends normally, a client was constructed and
    [generate_title] returned a title for the input text; the standard
    output gained exactly that title and a newline, exactly one request
    was sent, and without [--verbose] nothing was written to the standard
    error. *)
Theorem X8_main_success (args : Namespace) (w : Process) :
  snd (run_main args w) = inr tt ->
  exists text client s' title,
    input_text sys_stdin_read args = Some text
    /\ Client_init new_OpenAI os_getenv (args_api_key args) (args_model args)
       = inr client
    /\ generate_title text {| self := client; sent := requests w |}
       = (s', inr title)
    /\ stdout (fst (run_main args w)) = stdout w ++ title ++ LF
    /\ (exists request,
           requests (fst (run_main args w)) = requests w ++ [request])
    /\ (args_verbose args = false ->
        stderr (fst (run_main args w)) = stderr w).
Proof.
  destruct (input_text_cases args) as [Hn | [text Ht]].
  - rewrite (main_without_text args w Hn).
    destruct (args_stdin args); [|discriminate].
    destruct sys_stdin_read as [[code| |e]|content]; discriminate.
  - rewrite (main_run_with args text w Ht).
    destruct (construction args) as [sig|client] eqn:C.
    { rewrite (run_try_construction_fails args text w sig C).
      destruct sig; discriminate. }
    destruct (generate_title text {| self := client; sent := requests w |})
      as [s' [sig|title]] eqn:G.
    { rewrite (run_try_signal args text w client s' sig C G).
      destruct sig; discriminate. }
    rewrite (run_try_title args text w client s' title C G).
    intros _. exists text, client, s', title.
    split; [assumption|]. split; [reflexivity|]. split; [assumption|].
    cbn [fst stdout stderr requests]. split; [reflexivity|]. split.
    + destruct (generate_title_sent {| self := client; sent := requests w |} text)
        as [l [Hl [_ H1]]].
      rewrite G in Hl, H1. cbn [fst snd sent] in Hl, H1.
      specialize (H1 title eq_refl).
      destruct l as [|request [|x l]]; try discriminate.
      exists request. assumption.
    + intros V. unfold verbose_text. rewrite V. rewrite !app_nil_r.
      reflexivity.
Qed.

(** X9. When [main] ends with exit status 1 it has reported why (under
    the provisos of X7): the standard error gained, after the lines of
    [--verbose] if any, a message that starts with [Error: ] or with
    [Unexpected error: ] or is the cancellation notice, then a newline
    and, for an unexpected exception under [--verbose], the traceback.
    The standard output gained nothing, except the help text when no
    positional text was given. *)
Theorem X9_main_failure_reported (args : Namespace) (w : Process) :
  (forall sig, sys_stdin_read = inl sig -> sig = KeyboardInterrupt) ->
  (forall cl k code, responses_create cl k <> inl (SystemExit code)) ->
  (forall cl k code, chat_completions_create cl k <> inl (SystemExit code)) ->
  snd (run_main args w) = inl (SystemExit 1) ->
  (stdout (fst (run_main args w)) = stdout w
   \/ (args_stdin args = false
       /\ truthy_opt (args_text args) = false
       /\ stdout (fst (run_main args w)) = stdout w ++ format_help))
  /\ (exists before message after,
         stderr (fst (run_main args w))
         = stderr w ++ before ++ (message ++ LF) ++ after
         /\ (args_verbose args = false -> before = [])
         /\ (startswith message (lit "Error: ") = true
             \/ startswith message (lit "Unexpected error: ") = true
             \/ message = LF ++ lit "Operation cancelled.")
         /\ (after = []
             \/ (args_verbose args = true
                 /\ startswith message (lit "Unexpected error: ") = true
                 /\ exists e, after = format_exc e))).
Proof.
  intros Hs Hr Hc.
  assert (Shape : forall sig before0,
             (forall code, sig <> SystemExit code) ->
             (args_verbose args = false -> before0 = []) ->
             exists before message after,
               stderr w ++ before0 ++ report_text format_exc args sig
               = stderr w ++ before ++ (message ++ LF) ++ after
               /\ (args_verbose args = false -> before = [])
               /\ (startswith message (lit "Error: ") = true
                   \/ startswith message (lit "Unexpected error: ") = true
                   \/ message = LF ++ lit "Operation cancelled.")
               /\ (after = []
                   \/ (args_verbose args = true
                       /\ startswith message (lit "Unexpected error: ") = true
                       /\ exists e, after = format_exc e))).
  { intros sig before0 Hsig Hb.
    destruct sig as [code| |e].
    - exfalso. exact (Hsig code eq_refl).
    - exists before0, (LF ++ lit "Operation cancelled."), [].
      cbn [report_text]. rewrite app_nil_r.
      split; [reflexivity|]. split; [assumption|].
      split; [right; right; reflexivity | left; reflexivity].
    - cbn [report_text]. destruct (is_TitleCraftError e).
      + exists before0, (lit "Error: " ++ exc_str e), [].
        rewrite app_nil_r. split; [reflexivity|]. split; [assumption|].
        split; [left; apply startswith_app | left; reflexivity].
      + destruct (args_verbose args) eqn:V.
        * exists before0, (lit "Unexpected error: " ++ exc_str e),
            (format_exc e).
          split; [reflexivity|]. split; [assumption|].
          split; [right; left; apply startswith_app|].
          right. split; [reflexivity|].
          split; [apply startswith_app | eexists; reflexivity].
        * exists before0, (lit "Unexpected error: " ++ exc_str e), [].
          rewrite app_nil_r. split; [reflexivity|]. split; [assumption|].
          split; [right; left; apply startswith_app | left; reflexivity]. }
  destruct (input_text_cases args) as [Hn | [text Ht]].
  - rewrite (main_without_text args w Hn). unfold input_text in Hn.
    destruct (args_stdin args).
    + destruct sys_stdin_read as [sig|content].
      * rewrite (Hs sig eq_refl). intros _. split; [left; reflexivity|].
        exists [], (LF ++ lit "Operation cancelled."), [].
        cbn [fst log stderr]. rewrite app_nil_l, app_nil_r.
        split; [reflexivity|]. split; [reflexivity|].
        split; [right; right; reflexivity | left; reflexivity].
      * intros _. split; [left; reflexivity|].
        exists [], (lit "Error: No input provided via stdin."), [].
        cbn [fst log stderr]. rewrite app_nil_l, app_nil_r.
        split; [reflexivity|]. split; [reflexivity|].
        split; [left; vm_compute; reflexivity | left; reflexivity].
    + intros _. split.
      * right. destruct (truthy_opt (args_text args)) eqn:T; [|auto].
        destruct (args_text args); discriminate.
      * exists [], (lit "Error: No text provided."), [].
        cbn [fst stderr]. rewrite app_nil_l, app_nil_r.
        split; [reflexivity|]. split; [reflexivity|].
        split; [left; vm_compute; reflexivity | left; reflexivity].
  - rewrite (main_run_with args text w Ht).
    destruct (construction args) as [sig|client] eqn:C.
    { rewrite (run_try_construction_fails args text w sig C).
      intros _. cbn [fst stdout stderr]. split; [left; reflexivity|].
      apply Shape.
      - destruct (construction_raises_exception args sig C) as [e ->].
        discriminate.
      - unfold verbose_text. intros ->. reflexivity. }
    destruct (generate_title text {| self := client; sent := requests w |})
      as [s' [sig|title]] eqn:G.
    + rewrite (run_try_signal args text w client s' sig C G).
      intros _. cbn [fst stdout stderr]. split; [left; reflexivity|].
      rewrite (app_assoc (verbose_text args (using_model_line args))).
      apply Shape.
      * assert (G' : snd (generate_title text
                            {| self := client; sent := requests w |})
                     = inl sig).
        { rewrite G. reflexivity. }
        destruct (generate_title_signal _ _ _ G')
          as [[e [-> _]] | [_ [U [-> | [code ->]]]]]; try discriminate.
        exfalso. cbn [cut_short] in U.
        destruct (upstream_answer_exited _ _ _ U) as [[k Hk] | [k Hk]].
        -- exact (Hr _ _ _ Hk).
        -- exact (Hc _ _ _ Hk).
      * unfold verbose_text. intros ->. reflexivity.
    + rewrite (run_try_title args text w client s' title C G). discriminate.
Qed.

(** X10. Without a text [main] does no work: a missing or empty
    positional text, a standard input that is empty after stripping, and
    an interrupt while reading it each end with exit status 1 and their
    own message, before [--verbose] prints anything and with no request
    sent; only the first prints the help text. *)
Theorem X10_no_text_no_work (args : Namespace) (w : Process) :
  (args_stdin args = false -> truthy_opt (args_text args) = false ->
   run_main args w
   = ({| stdout := stdout w ++ format_help;
         stderr := stderr w ++ lit "Error: No text provided." ++ LF;
         requests := requests w |}, inl (SystemExit 1)))
  /\ (forall content,
         args_stdin args = true -> sys_stdin_read = inr content ->
         strip content = [] ->
         run_main args w
         = ({| stdout := stdout w;
               stderr := stderr w ++ lit "Error: No input provided via stdin." ++ LF;
               requests := requests w |}, inl (SystemExit 1)))
  /\ (args_stdin args = true -> sys_stdin_read = inl KeyboardInterrupt ->
      run_main args w
      = ({| stdout := stdout w;
            stderr := stderr w ++ (LF ++ lit "Operation cancelled.") ++ LF;
            requests := requests w |}, inl (SystemExit 1))).
Proof.
  split; [|split].
  - intros Hs Ht.
    assert (Hn : input_text sys_stdin_read args = None).
    { unfold input_text. rewrite Hs, Ht. reflexivity. }
    rewrite (main_without_text args w Hn), Hs. reflexivity.
  - intros content Hs Hr Hc.
    assert (Hn : input_text sys_stdin_read args = None).
    { unfold input_text. rewrite Hs, Hr, Hc. reflexivity. }
    rewrite (main_without_text args w Hn), Hs, Hr. reflexivity.
  - intros Hs Hr.
    assert (Hn : input_text sys_stdin_read args = None).
    { unfold input_text. rewrite Hs, Hr. reflexivity. }
    rewrite (main_without_text args w Hn), Hs, Hr. reflexivity.
Qed.

(** X11. [--verbose] changes nothing but the standard error: with and
    without it [main] ends the same way, writes the same standard output
    and sends the same requests; on the standard error the verbose run
    writes what the quiet run writes, with its own lines before it and,
    after an unexpected exception, the traceback after it. *)
Theorem X11_verbose_only_adds_to_stderr (args : Namespace) (w : Process) :
  snd (run_main (with_verbose true args) w)
  = snd (run_main (with_verbose false args) w)
  /\ stdout (fst (run_main (with_verbose true args) w))
     = stdout (fst (run_main (with_verbose false args) w))
  /\ requests (fst (run_main (with_verbose true args) w))
     = requests (fst (run_main (with_verbose false args) w))
  /\ (exists before rest after,
         stderr (fst (run_main (with_verbose false args) w)) = stderr w ++ rest
         /\ stderr (fst (run_main (with_verbose true args) w))
            = stderr w ++ before ++ rest ++ after
         /\ (after = [] \/ exists e, after = format_exc e)).
Proof.
  assert (Rep : forall sig, exists rest after,
             report_text format_exc (with_verbose false args) sig = rest
             /\ report_text format_exc (with_verbose true args) sig
                = rest ++ after
             /\ (after = [] \/ exists e, after = format_exc e)).
  { intros [code| |e]; cbn [report_text with_verbose args_verbose].
    - exists [], []. auto.
    - eexists. exists []. rewrite app_nil_r. auto.
    - destruct (is_TitleCraftError e).
      + eexists. exists []. rewrite app_nil_r. auto.
      + eexists. exists (format_exc e).
        split; [reflexivity|]. split; [reflexivity | right; eauto]. }
  destruct (input_text_cases args) as [Hn | [text Ht]].
  - rewrite (main_without_text (with_verbose true args) w Hn).
    rewrite (main_without_text (with_verbose false args) w Hn).
    cbn [with_verbose args_stdin].
    repeat split. exists [].
    match goal with
    | |- exists rest after, stderr (fst ?X) = _ /\ _ =>
        assert (E : exists rest, stderr (fst X) = stderr w ++ rest)
    end.
    { destruct (args_stdin args).
      - destruct sys_stdin_read as [[code| |e]|content];
          cbn [fst log stderr].
        + exists []. symmetry. apply app_nil_r.
        + exists ((LF ++ lit "Operation cancelled.") ++ LF). reflexivity.
        + exists []. symmetry. apply app_nil_r.
        + exists (lit "Error: No input provided via stdin." ++ LF). reflexivity.
      - cbn [fst stderr]. exists (lit "Error: No text provided." ++ LF).
        reflexivity. }
    destruct E as [rest E]. exists rest, [].
    rewrite app_nil_l, app_nil_r. split; [exact E|]. split; [exact E|].
    left. reflexivity.
  - rewrite (main_run_with (with_verbose true args) text w Ht).
    rewrite (main_run_with (with_verbose false args) text w Ht).
    destruct (construction args) as [sig|client] eqn:C.
    { rewrite (run_try_construction_fails (with_verbose true args) text w sig C).
      rewrite (run_try_construction_fails (with_verbose false args) text w sig C).
      cbn [fst snd stdout stderr requests]. repeat split.
      destruct (Rep sig) as [rest [after [R1 [R2 R3]]]].
      exists (using_model_line (with_verbose true args) ++ LF), rest, after.
      rewrite R1, R2. unfold verbose_text.
      cbn [with_verbose args_verbose]. rewrite app_nil_l.
      split; [reflexivity|]. split; [reflexivity | assumption]. }
    destruct (generate_title text {| self := client; sent := requests w |})
      as [s' [sig|title]] eqn:G.
    + rewrite (run_try_signal (with_verbose true args) text w client s' sig C G).
      rewrite (run_try_signal (with_verbose false args) text w client s' sig C G).
      cbn [fst snd stdout stderr requests]. repeat split.
      destruct (Rep sig) as [rest [after [R1 [R2 R3]]]].
      exists ((using_model_line (with_verbose true args) ++ LF)
              ++ generating_line text ++ LF), rest, after.
      rewrite R1, R2. unfold verbose_text.
      cbn [with_verbose args_verbose]. rewrite !app_nil_l, <- !app_assoc.
      split; [reflexivity|]. split; [reflexivity | assumption].
    + rewrite (run_try_title (with_verbose true args) text w client s' title C G).
      rewrite (run_try_title (with_verbose false args) text w client s' title C G).
      cbn [fst snd stdout stderr requests]. repeat split.
      exists ((using_model_line (with_verbose true args) ++ LF)
              ++ generating_line text ++ LF), [], [].
      unfold verbose_text. cbn [with_verbose args_verbose].
      rewrite !app_nil_l, !app_nil_r, <- !app_assoc.
      split; [reflexivity|]. split; [reflexivity | left; reflexivity].
Qed.

(** X12. Reading the text from the standard input is the same as giving
    its stripped form as positional text: when the input is read and is
    not empty after stripping, the two runs of [main] agree in
    everything. *)
Theorem X12_stdin_as_positional (args : Namespace) (w : Process)
    (content : str) :
  args_stdin args = true ->
  sys_stdin_read = inr content ->
  strip content <> [] ->
  run_main args w = run_main (with_text (strip content) args) w.
Proof.
  intros Hs Hr Hc.
  assert (T : truthy (strip content) = true).
  { destruct (strip content); [contradiction | reflexivity]. }
  assert (H1 : input_text sys_stdin_read args = Some (strip content)).
  { unfold input_text. rewrite Hs, Hr, T. reflexivity. }
  assert (H2 : input_text sys_stdin_read (with_text (strip content) args)
               = Some (strip content)).
  { unfold input_text. cbn [with_text args_stdin args_text truthy_opt].
    rewrite T. reflexivity. }
  rewrite (main_run_with args (strip content) w H1).
  rewrite (main_run_with (with_text (strip content) args) (strip content) w H2).
  reflexivity.
Qed.

(** X13. What [Client(...)] or [generate_title] raises reaches the user:
    [main] ends with exit status 1, leaves the standard output alone and
    writes to the standard error, after the lines of [--verbose] if any,
    the line [Error: ] followed by [str(e)] for a [TitleCraftError] [e],
    and for any other exception [e] (one that the constructor of the
    package raises) the line [Unexpected error: ] followed by [str(e)]
    and, under [--verbose], the traceback. *)
Theorem X13_client_errors_reported (args : Namespace) (w : Process)
    (text : str) (e : Exc) :
  input_text sys_stdin_read args = Some text ->
  Client_init new_OpenAI os_getenv (args_api_key args) (args_model args)
  = inl (Exception e)
  \/ (exists client,
         Client_init new_OpenAI os_getenv (args_api_key args) (args_model args)
         = inr client
         /\ snd (generate_title text {| self := client; sent := requests w |})
            = inl (Exception e)) ->
  snd (run_main args w) = inl (SystemExit 1)
  /\ stdout (fst (run_main args w)) = stdout w
  /\ (exists before,
         stderr (fst (run_main args w))
         = stderr w ++ before
           ++ (if is_TitleCraftError e
               then (lit "Error: " ++ exc_str e) ++ LF
               else if args_verbose args
                    then ((lit "Unexpected error: " ++ exc_str e) ++ LF)
                         ++ format_exc e
                    else (lit "Unexpected error: " ++ exc_str e) ++ LF)
         /\ (args_verbose args = false -> before = [])).
Proof.
  intros Ht H. rewrite (main_run_with args text w Ht).
  destruct H as [C | [client [C G]]].
  - rewrite (run_try_construction_fails args text w _ C).
    cbn [fst snd stdout stderr exit_of report_text].
    split; [reflexivity|]. split; [reflexivity|].
    exists (verbose_text args (using_model_line args)).
    split; [reflexivity|]. unfold verbose_text. intros ->. reflexivity.
  - destruct (generate_title text {| self := client; sent := requests w |})
      as [s' [sig|title]] eqn:G'; [|discriminate].
    cbn [snd] in G. injection G as ->.
    rewrite (run_try_signal args text w client s' _ C G').
    cbn [fst snd stdout stderr exit_of report_text].
    split; [reflexivity|]. split; [reflexivity|].
    exists (verbose_text args (using_model_line args)
            ++ verbose_text args (generating_line text)).
    rewrite <- (app_assoc (verbose_text args (using_model_line args))).
    split; [reflexivity|].
    unfold verbose_text. intros ->. reflexivity.
Qed.

(** X14. A run of [main] sends at most one request, after the requests
    that were there; it sends exactly one when it ends normally. *)
Theorem X14_main_at_most_one_request (args : Namespace) (w : Process) :
  exists l,
    requests (fst (run_main args w)) = requests w ++ l
    /\ (List.length l <= 1)%nat
    /\ (snd (run_main args w) = inr tt -> List.length l = 1%nat).
Proof.
  destruct (input_text_cases args) as [Hn | [text Ht]].
  - rewrite (main_without_text args w Hn). exists [].
    rewrite app_nil_r. destruct (args_stdin args).
    + destruct sys_stdin_read as [[code| |e]|content];
        cbn [fst snd log requests List.length]; repeat split;
        (lia || discriminate).
    + cbn [fst snd requests List.length]. repeat split; (lia || discriminate).
  - rewrite (main_run_with args text w Ht).
    destruct (construction args) as [sig|client] eqn:C.
    { rewrite (run_try_construction_fails args text w sig C).
      exists []. rewrite app_nil_r. cbn [fst snd requests List.length].
      repeat split; [lia|]. destruct sig; discriminate. }
    destruct (generate_title_sent {| self := client; sent := requests w |} text)
      as [l [Hl [Hle H1]]].
    destruct (generate_title text {| self := client; sent := requests w |})
      as [s' [sig|title]] eqn:G; cbn [fst snd sent] in *; exists l.
    + rewrite (run_try_signal args text w client s' sig C G).
      cbn [fst snd requests]. repeat split; [assumption | assumption |].
      destruct sig; discriminate.
    + rewrite (run_try_title args text w client s' title C G).
      cbn [fst snd requests]. repeat split; [assumption | assumption |].
      intros _. exact (H1 title eq_refl).
Qed.

(** X15. Nothing is sent upstream unless there is a text, the client
    could be constructed and the text is validated: in each other case
    the requests after the run are those before it. *)
Theorem X15_no_request_without_valid_input (args : Namespace) (w : Process) :
  input_text sys_stdin_read args = None
  \/ (exists e,
         Client_init new_OpenAI os_getenv (args_api_key args) (args_model args)
         = inl e)
  \/ (exists text,
         input_text sys_stdin_read args = Some text /\ ~ valid_input text) ->
  requests (fst (run_main args w)) = requests w.
Proof.
  intros H. destruct (input_text_cases args) as [Hn | [text Ht]].
  - rewrite (main_without_text args w Hn). destruct (args_stdin args).
    + destruct sys_stdin_read as [[code| |e]|content]; reflexivity.
    + reflexivity.
  - rewrite (main_run_with args text w Ht).
    destruct (construction args) as [sig|client] eqn:C.
    { rewrite (run_try_construction_fails args text w sig C). reflexivity. }
    destruct H as [Hn | [[e He] | [text' [Ht' Hv]]]].
    + rewrite Hn in Ht. discriminate.
    + discriminate.
    + rewrite Ht' in Ht. injection Ht as ->.
      destruct (generate_title_invalid text
                  {| self := client; sent := requests w |} Hv) as [Hf _].
      destruct (generate_title text {| self := client; sent := requests w |})
        as [s' [sig|title]] eqn:G; cbn [fst] in Hf; subst s'.
      * rewrite (run_try_signal args text w client _ sig C G). reflexivity.
      * rewrite (run_try_title args text w client _ title C G). reflexivity.
Qed.

(** X16. An interrupt during the upstream call ends the run with the
    cancellation notice: when the client is constructed, the text is
    validated and the upstream call raises [KeyboardInterrupt], [main]
    ends with exit status 1 after the one request it sent, leaves the
    standard output alone and writes to the standard error, after the
    lines of [--verbose] if any, an empty line and [Operation cancelled.] *)
Theorem X16_interrupt_during_call (args : Namespace) (w : Process)
    (text : str) (client : Client) :
  input_text sys_stdin_read args = Some text ->
  Client_init new_OpenAI os_getenv (args_api_key args) (args_model args)
  = inr client ->
  valid_input text ->
  upstream_answer (_client client) (request_for client (strip text))
  = Interrupted ->
  snd (run_main args w) = inl (SystemExit 1)
  /\ stdout (fst (run_main args w)) = stdout w
  /\ requests (fst (run_main args w))
     = requests w ++ [request_for client (strip text)]
  /\ (exists before,
         stderr (fst (run_main args w))
         = stderr w ++ before ++ (LF ++ lit "Operation cancelled.") ++ LF
         /\ (args_verbose args = false -> before = [])).
Proof.
  intros Ht C Hv U. rewrite (main_run_with args text w Ht).
  pose proof (generate_title_valid text
                {| self := client; sent := requests w |} Hv) as G.
  cbn [self sent] in G. rewrite U in G. cbn [result_of] in G.
  rewrite (run_try_signal args text w client _ _ C G).
  cbn [fst snd stdout stderr requests sent exit_of report_text].
  split; [reflexivity|]. split; [reflexivity|]. split; [reflexivity|].
  exists (verbose_text args (using_model_line args)
          ++ verbose_text args (generating_line text)).
  rewrite <- (app_assoc (verbose_text args (using_model_line args))).
  split; [reflexivity|].
  unfold verbose_text. intros ->. reflexivity.
Qed.

End CliProperties.

End Methods.

(** ** The properties at concrete inputs *)

Lemma valid_Test_text : valid_input (lit "Test text").
Proof. split; vm_compute; discriminate. Defined.

Lemma C1_failure_mapping_witness :
  valid_input (lit "Test text")
  /\ upstream_answer (responses_raising failure_404) (chat_raising failure_404)
       (_client (test_client DEFAULT_MODEL))
       (request_for (test_client DEFAULT_MODEL) (strip (lit "Test text")))
     = Raised failure_404
  /\ snd (generate_title (responses_raising failure_404) (chat_raising failure_404)
            (lit "Test text") (fresh (test_client DEFAULT_MODEL)))
     = inl (Exception (APIError (lit "Failed to generate title: Not found") (Some failure_404))).
Proof.
  split; [exact valid_Test_text|]. split; [reflexivity|].
  refine (proj2 (proj2 (proj2
            (C1_failure_mapping (responses_raising failure_404)
               (chat_raising failure_404) (fresh (test_client DEFAULT_MODEL))
               (lit "Test text") failure_404 valid_Test_text eq_refl))) _).
  right. exists 404%Z. repeat split; discriminate.
Defined.

Lemma C2_call_shapes_witness :
  valid_input (lit "Test text")
  /\ class_A (lit "gpt-5-mini")
  /\ sent (fst (generate_title (responses_returning (Some (lit "Test Title")))
                  (chat_returning None)
                  (lit "Test text") (fresh (test_client (lit "gpt-5-mini")))))
     = sent (fresh (test_client (lit "gpt-5-mini")))
       ++ [ResponsesCreate
             {| Responses.model := lit "gpt-5-mini";
                Responses.input :=
                  base_prompt ++ LF ++ LF
                  ++ lit "Text to convert to title: " ++ strip (lit "Test text");
                Responses.reasoning := [(lit "effort", lit "minimal")];
                Responses.text := [(lit "verbosity", lit "low")];
                Responses.timeout := 30 |}]
  /\ class_B (lit "gpt-3.5-turbo")
  /\ sent (fst (generate_title (responses_returning None)
                  (chat_returning (Some (lit "Test Title")))
                  (lit "Test text") (fresh (test_client (lit "gpt-3.5-turbo")))))
     = sent (fresh (test_client (lit "gpt-3.5-turbo")))
       ++ [ChatCompletionsCreate
             {| Chat.model := lit "gpt-3.5-turbo";
                Chat.messages :=
                  [ {| Chat.role := lit "system";
                       Chat.content := instruction_for (lit "gpt-3.5-turbo") |};
                    {| Chat.role := lit "user";
                       Chat.content := strip (lit "Test text") |} ];
                Chat.max_completion_tokens := 50;
                Chat.temperature := 0.3;
                Chat.timeout := 30 |}].
Proof.
  assert (HA : class_A (lit "gpt-5-mini")).
  { apply mem_In. reflexivity. }
  assert (HB : class_B (lit "gpt-3.5-turbo")).
  { split; [apply mem_In | apply mem_not_In]; reflexivity. }
  split; [exact valid_Test_text|]. split; [exact HA|]. split.
  - exact (proj1 (C2_call_shapes (responses_returning (Some (lit "Test Title")))
                    (chat_returning None) (fresh (test_client (lit "gpt-5-mini")))
                    (lit "Test text") valid_Test_text) HA).
  - split; [exact HB|].
    exact (proj2 (C2_call_shapes (responses_returning None)
                    (chat_returning (Some (lit "Test Title")))
                    (fresh (test_client (lit "gpt-3.5-turbo")))
                    (lit "Test text") valid_Test_text) HB).
Defined.

Lemma C4_title_cleaning_witness :
  valid_input (lit "Test text")
  /\ DQUOTE ++ lit "Quoted Title" ++ DQUOTE <> []
  /\ snd (generate_title (responses_returning None)
            (chat_returning (Some (DQUOTE ++ lit "Quoted Title" ++ DQUOTE)))
            (lit "Test text") (fresh (test_client DEFAULT_MODEL)))
     = inr (lit "Quoted Title").
Proof.
  assert (Hne : DQUOTE ++ lit "Quoted Title" ++ DQUOTE <> []) by discriminate.
  split; [exact valid_Test_text|]. split; [exact Hne|].
  exact (proj1 (C4_title_cleaning (responses_returning None)
                  (chat_returning (Some (DQUOTE ++ lit "Quoted Title" ++ DQUOTE)))
                  (fresh (test_client DEFAULT_MODEL)) (lit "Test text")
                  (DQUOTE ++ lit "Quoted Title" ++ DQUOTE)
                  valid_Test_text Hne eq_refl)).
Defined.

(** C4, as the specification words it, fails on the code: for a payload
    inside two layers of double quotes the code removes both layers,
    where either reading of "a single layer" removes one. *)
Lemma C4_counterexample :
  doubly_quoted <> []
  /\ snd (generate_title (responses_returning None)
            (chat_returning (Some doubly_quoted))
            (lit "Test text") (fresh (test_client DEFAULT_MODEL)))
     = inr (lit "A")
  /\ spec_title_pair doubly_quoted = DQUOTE ++ lit "A" ++ DQUOTE
  /\ spec_title_each_end doubly_quoted = DQUOTE ++ lit "A" ++ DQUOTE
  /\ snd (generate_title (responses_returning None)
            (chat_returning (Some doubly_quoted))
            (lit "Test text") (fresh (test_client DEFAULT_MODEL)))
     <> inr (spec_title_pair doubly_quoted)
  /\ snd (generate_title (responses_returning None)
            (chat_returning (Some doubly_quoted))
            (lit "Test text") (fresh (test_client DEFAULT_MODEL)))
     <> inr (spec_title_each_end doubly_quoted).
Proof.
  repeat split; try reflexivity; vm_compute; discriminate.
Qed.

Lemma C5_empty_payload_witness :
  valid_input (lit "Test text")
  /\ upstream_answer (responses_returning None) (chat_returning None)
       (_client (test_client DEFAULT_MODEL))
       (request_for (test_client DEFAULT_MODEL) (strip (lit "Test text")))
     = Payload None
  /\ (exists msg cause,
         snd (generate_title (responses_returning None) (chat_returning None)
                (lit "Test text") (fresh (test_client DEFAULT_MODEL)))
         = inl (Exception (APIError msg cause))
         /\ contains msg (lit "empty response") = true)
  /\ snd (generate_title (responses_returning None) (chat_returning None)
            (lit "Test text") (fresh (test_client DEFAULT_MODEL)))
     <> inr [].
Proof.
  split; [exact valid_Test_text|]. split; [reflexivity|].
  exact (C5_empty_payload (responses_returning None) (chat_returning None)
           (fresh (test_client DEFAULT_MODEL)) (lit "Test text") None
           valid_Test_text eq_refl (or_introl eq_refl)).
Defined.

Lemma C8_credential_witness :
  In DEFAULT_MODEL SUPPORTED_MODELS
  /\ Client_init OpenAI_plain (environ_with (lit "env-key")) None DEFAULT_MODEL
     = inr {| model := DEFAULT_MODEL;
              _client := {| api_key := Some (lit "env-key") |} |}
  /\ is_ValidationError
       (Client_init OpenAI_plain environ_empty None DEFAULT_MODEL).
Proof.
  assert (H : In DEFAULT_MODEL SUPPORTED_MODELS).
  { apply mem_In. reflexivity. }
  split; [exact H|]. split.
  - apply (proj1 (proj2 (C8_credential OpenAI_plain
                           (environ_with (lit "env-key")) None
                           DEFAULT_MODEL H) (or_intror eq_refl))).
    reflexivity.
  - apply (proj1 (C8_credential OpenAI_plain environ_empty None
                    DEFAULT_MODEL H)).
    intros [Hc|Hc]; discriminate.
Defined.

(** C7, as the specification words it, fails on the code: with a
    supported model and a credential, construction does not succeed when
    the constructor of the package raises, as it does for a proxy setting
    it cannot use; the exception is not a [ValidationError]. *)
Lemma C7_counterexample :
  In DEFAULT_MODEL SUPPORTED_MODELS
  /\ credential_available (environ_bogus_proxy None) (Some (lit "test-key"))
  /\ (forall client,
         Client_init OpenAI_checking_proxy (environ_bogus_proxy None)
           (Some (lit "test-key")) DEFAULT_MODEL <> inr client)
  /\ Client_init OpenAI_checking_proxy (environ_bogus_proxy None)
       (Some (lit "test-key")) DEFAULT_MODEL
     = inl (Exception
              (OtherException None (lit "Unknown scheme for proxy URL"))).
Proof.
  assert (E : Client_init OpenAI_checking_proxy (environ_bogus_proxy None)
                (Some (lit "test-key")) DEFAULT_MODEL
              = inl (Exception
                       (OtherException None
                          (lit "Unknown scheme for proxy URL")))).
  { vm_compute. reflexivity. }
  split; [apply mem_In; reflexivity|].
  split; [left; reflexivity|].
  split; [|exact E]. intros client. rewrite E. discriminate.
Qed.

(** C8, as the specification words it, fails on the code: with a
    supported model and the credential of the environment, construction
    raises no [ValidationError] and yet produces no client when the
    constructor of the package raises. *)
Lemma C8_counterexample :
  In DEFAULT_MODEL SUPPORTED_MODELS
  /\ credential_available (environ_bogus_proxy (Some (lit "env-key"))) None
  /\ ~ is_ValidationError
         (Client_init OpenAI_checking_proxy
            (environ_bogus_proxy (Some (lit "env-key"))) None DEFAULT_MODEL)
  /\ (forall client,
         Client_init OpenAI_checking_proxy
           (environ_bogus_proxy (Some (lit "env-key"))) None DEFAULT_MODEL
         <> inr client).
Proof.
  assert (E : Client_init OpenAI_checking_proxy
                (environ_bogus_proxy (Some (lit "env-key"))) None DEFAULT_MODEL
              = inl (Exception
                       (OtherException None
                          (lit "Unknown scheme for proxy URL")))).
  { vm_compute. reflexivity. }
  split; [apply mem_In; reflexivity|].
  split; [right; reflexivity|].
  rewrite E. split.
  - intros [msg H]. discriminate.
  - intros client. discriminate.
Qed.

(** C10, as the specification words it, fails on the code: with the empty
    string as explicit credential and a non-empty value of the
    environment, construction does not succeed when the constructor of
    the package raises. *)
Lemma C10_counterexample :
  In DEFAULT_MODEL SUPPORTED_MODELS
  /\ environ_bogus_proxy (Some (lit "env-key")) (lit "OPENAI_API_KEY")
     = Some (lit "env-key")
  /\ lit "env-key" <> []
  /\ (forall client,
         Client_init OpenAI_checking_proxy
           (environ_bogus_proxy (Some (lit "env-key"))) (Some [])
           DEFAULT_MODEL
         <> inr client).
Proof.
  assert (E : Client_init OpenAI_checking_proxy
                (environ_bogus_proxy (Some (lit "env-key"))) (Some [])
                DEFAULT_MODEL
              = inl (Exception
                       (OtherException None
                          (lit "Unknown scheme for proxy URL")))).
  { vm_compute. reflexivity. }
  split; [apply mem_In; reflexivity|].
  split; [reflexivity|]. split; [discriminate|].
  intros client. rewrite E. discriminate.
Qed.

(** ** The cases of [tests/test_core.py], evaluated *)

Example test_generate_title_success :
  snd (generate_title (responses_returning None)
         (chat_returning (Some (lit "Test Title")))
         (lit "This is some test text for title generation.")
         (fresh (test_client DEFAULT_MODEL)))
  = inr (lit "Test Title").
Proof. vm_compute. reflexivity. Qed.

Example test_generate_title_empty_input :
  snd (generate_title (responses_returning None)
         (chat_returning (Some (lit "Test Title")))
         (lit "   ") (fresh (test_client DEFAULT_MODEL)))
  = inl (Exception (ValidationError (lit "Input text cannot be empty."))).
Proof. vm_compute. reflexivity. Qed.

Example test_text_stripping :
  sent (fst (generate_title (responses_returning None)
               (chat_returning (Some (lit "Test Title")))
               (lit "  " ++ LF ++ lit "  Test text with whitespace  " ++ LF ++ lit "  ")
               (fresh (test_client DEFAULT_MODEL))))
  = [ChatCompletionsCreate
       {| Chat.model := lit "gpt-4o";
          Chat.messages :=
            [ {| Chat.role := lit "system"; Chat.content := base_prompt |};
              {| Chat.role := lit "user";
                 Chat.content := lit "Test text with whitespace" |} ];
          Chat.max_completion_tokens := 50;
          Chat.temperature := 0.3;
          Chat.timeout := 30 |}].
Proof. vm_compute. reflexivity. Qed.

Lemma strip_x_times (n : N) : strip (x_times n) = x_times n.
Proof.
  assert (L : forall k, lstrip_by is_whitespace (repeat 120%N k) = repeat 120%N k).
  { intros [|k]; reflexivity. }
  unfold strip, strip_by, rstrip_by, x_times.
  rewrite L, rev_repeat, L, rev_repeat. reflexivity.
Qed.

Lemma len_x_times (n : N) : len (x_times n) = Z.of_N n.
Proof. unfold len, x_times. rewrite repeat_length. apply N_nat_Z. Qed.

Lemma valid_x_times_8000 : valid_input (x_times 8000).
Proof.
  unfold valid_input. rewrite strip_x_times. split.
  - intros H. apply (f_equal len) in H. rewrite len_x_times in H. discriminate.
  - rewrite len_x_times. discriminate.
Qed.

Example test_length_validation :
  snd (generate_title (responses_returning None)
         (chat_returning (Some (lit "Test Title")))
         (x_times 8000) (fresh (test_client DEFAULT_MODEL)))
  = inr (lit "Test Title")
  /\ snd (generate_title (responses_returning None)
            (chat_returning (Some (lit "Test Title")))
            (x_times 8001) (fresh (test_client DEFAULT_MODEL)))
     = inl (Exception (ValidationError (lit "Input text too long (max 8000 characters)."))).
Proof.
  split.
  - rewrite (generate_title_valid (responses_returning None)
               (chat_returning (Some (lit "Test Title"))) (x_times 8000)
               (fresh (test_client DEFAULT_MODEL)) valid_x_times_8000).
    reflexivity.
  - rewrite (generate_title_too_long (responses_returning None)
               (chat_returning (Some (lit "Test Title"))) (x_times 8001)
               (fresh (test_client DEFAULT_MODEL)));
      [reflexivity | |]; rewrite strip_x_times.
    + intros H. apply (f_equal len) in H. rewrite len_x_times in H.
      discriminate.
    + rewrite len_x_times. reflexivity.
Qed.

Example test_generate_title_api_error_handling :
  snd (generate_title (responses_returning None)
         (chat_raising (OtherException (Some 429%Z) []))
         (lit "Test text") (fresh (test_client DEFAULT_MODEL)))
  = inl (Exception (APIError (lit "Rate limit exceeded. Please try again later.")
           (Some (OtherException (Some 429%Z) []))))
  /\ snd (generate_title (responses_returning None)
            (chat_raising (OtherException (Some 401%Z) []))
            (lit "Test text") (fresh (test_client DEFAULT_MODEL)))
     = inl (Exception (APIError (lit "Invalid API key.")
              (Some (OtherException (Some 401%Z) []))))
  /\ snd (generate_title (responses_returning None)
            (chat_raising (OtherException (Some 500%Z) []))
            (lit "Test text") (fresh (test_client DEFAULT_MODEL)))
     = inl (Exception (APIError (lit "OpenAI API server error. Please try again later.")
              (Some (OtherException (Some 500%Z) []))))
  /\ snd (generate_title (responses_returning None)
            (chat_raising (OtherException None (lit "Network error")))
            (lit "Test text") (fresh (test_client DEFAULT_MODEL)))
     = inl (Exception (APIError (lit "Failed to generate title: Network error")
              (Some (OtherException None (lit "Network error"))))).
Proof. repeat split; vm_compute; reflexivity. Qed.

Example test_generate_title_empty_response :
  snd (generate_title (responses_returning None) (chat_returning None)
         (lit "Test text") (fresh (test_client DEFAULT_MODEL)))
  = inl (Exception (APIError
           (lit "Failed to generate title: OpenAI API returned empty response.")
           (Some (APIError (lit "OpenAI API returned empty response.") None))))
  /\ snd (generate_title (responses_returning None) (chat_returning None)
            (lit "Test text") (fresh (test_client (lit "gpt-5"))))
     = inl (Exception (APIError
              (lit "Failed to generate title: Model 'gpt-5' returned empty response.")
              (Some (APIError (lit "Model 'gpt-5' returned empty response.") None)))).
Proof. split; vm_compute; reflexivity. Qed.

Example test_init_invalid_model :
  Client_init OpenAI_plain environ_empty (Some (lit "test-key"))
    (lit "invalid-model")
  = inl (Exception (ValidationError
           (lit "Unsupported model 'invalid-model'. Supported models: gpt-5, gpt-5-mini, gpt-5-nano, gpt-4o, gpt-4o-mini, gpt-4, gpt-3.5-turbo"))).
Proof. vm_compute. reflexivity. Qed.

Example test_gpt35_turbo_prompt :
  _get_system_prompt (fresh (test_client (lit "gpt-3.5-turbo")))
  = (fresh (test_client (lit "gpt-3.5-turbo")), inr simple_prompt)
  /\ startswith simple_prompt (lit "Convert text to a concise title") = true
  /\ (len simple_prompt < 200)%Z.
Proof. repeat split; vm_compute; reflexivity. Qed.

(** Two cases next to the ones above: a payload of whitespace only is not
    an empty payload, and its title is the empty string; a chat response
    without choices ends in the generic [APIError]. *)
Example whitespace_payload :
  snd (generate_title (responses_returning None) (chat_returning (Some (lit "   ")))
         (lit "Test text") (fresh (test_client DEFAULT_MODEL)))
  = inr [].
Proof. vm_compute. reflexivity. Qed.

Example response_without_choices :
  snd (generate_title (responses_returning None)
         (fun _ _ => inr {| Chat.choices := [] |})
         (lit "Test text") (fresh (test_client DEFAULT_MODEL)))
  = inl (Exception (APIError (lit "Failed to generate title: list index out of range")
           (Some (IndexError (lit "list index out of range"))))).
Proof. vm_compute. reflexivity. Qed.

(** ** The further properties at concrete inputs *)


Lemma X4_title_within_payload_witness :
  valid_input (lit "Test text")
  /\ DQUOTE ++ lit "Quoted Title" ++ DQUOTE <> []
  /\ exists before title after,
       snd (generate_title (responses_returning None)
              (chat_returning (Some (DQUOTE ++ lit "Quoted Title" ++ DQUOTE)))
              (lit "Test text") (fresh (test_client DEFAULT_MODEL)))
       = inr title
       /\ DQUOTE ++ lit "Quoted Title" ++ DQUOTE = before ++ title ++ after
       /\ forallb is_trimmed before = true
       /\ forallb is_trimmed after = true
       /\ (forall c r, title = c :: r -> c <> 39%N)
       /\ (forall c r, title = r ++ [c] -> c <> 39%N).
Proof.
  assert (Hne : DQUOTE ++ lit "Quoted Title" ++ DQUOTE <> []) by discriminate.
  split; [exact valid_Test_text|]. split; [exact Hne|].
  exact (X4_title_within_payload (responses_returning None)
           (chat_returning (Some (DQUOTE ++ lit "Quoted Title" ++ DQUOTE)))
           (fresh (test_client DEFAULT_MODEL)) (lit "Test text")
           (DQUOTE ++ lit "Quoted Title" ++ DQUOTE)
           valid_Test_text Hne eq_refl).
Defined.

Lemma stdin_hi_only_interrupts :
  forall sig, stdin_hi = inl sig -> sig = KeyboardInterrupt.
Proof. intros sig H. discriminate H. Defined.

Lemma responses_returning_no_exit (payload : option str) :
  forall cl k code, responses_returning payload cl k <> inl (SystemExit code).
Proof. intros cl k code H. discriminate H. Defined.

Lemma chat_returning_no_exit (payload : option str) :
  forall cl k code, chat_returning payload cl k <> inl (SystemExit code).
Proof. intros cl k code H. discriminate H. Defined.

Lemma chat_interrupted_no_exit :
  forall cl k code, chat_interrupted cl k <> inl (SystemExit code).
Proof. intros cl k code H. discriminate H. Defined.

Lemma X7_main_exit_status_witness :
  (forall sig, stdin_hi = inl sig -> sig = KeyboardInterrupt)
  /\ (forall cl k code,
         responses_returning None cl k <> inl (SystemExit code))
  /\ (forall cl k code, chat_interrupted cl k <> inl (SystemExit code))
  /\ (snd (main (responses_returning None) chat_interrupted
             OpenAI_plain environ_empty stdin_hi help_text no_traceback
             (args_from_stdin true) started) = inr tt
      \/ snd (main (responses_returning None) chat_interrupted
                OpenAI_plain environ_empty stdin_hi help_text no_traceback
                (args_from_stdin true) started) = inl (SystemExit 1)).
Proof.
  split; [exact stdin_hi_only_interrupts|].
  split; [exact (responses_returning_no_exit None)|].
  split; [exact chat_interrupted_no_exit|].
  exact (X7_main_exit_status (responses_returning None) chat_interrupted
           OpenAI_plain environ_empty stdin_hi help_text no_traceback
           (args_from_stdin true) started stdin_hi_only_interrupts
           (responses_returning_no_exit None) chat_interrupted_no_exit).
Defined.

Lemma X8_main_success_witness :
  snd (main (responses_returning None) (chat_returning (Some (lit "Test Title")))
         OpenAI_plain environ_empty stdin_hi help_text no_traceback
         (args_from_stdin false) started) = inr tt
  /\ exists text client s' title,
       input_text stdin_hi (args_from_stdin false) = Some text
       /\ Client_init OpenAI_plain environ_empty
            (args_api_key (args_from_stdin false))
            (args_model (args_from_stdin false)) = inr client
       /\ generate_title (responses_returning None)
            (chat_returning (Some (lit "Test Title"))) text
            {| self := client; sent := requests started |} = (s', inr title)
       /\ stdout (fst (main (responses_returning None)
                         (chat_returning (Some (lit "Test Title")))
                         OpenAI_plain environ_empty stdin_hi help_text
                         no_traceback (args_from_stdin false) started))
          = stdout started ++ title ++ LF
       /\ (exists request,
              requests (fst (main (responses_returning None)
                               (chat_returning (Some (lit "Test Title")))
                               OpenAI_plain environ_empty stdin_hi help_text
                               no_traceback (args_from_stdin false) started))
              = requests started ++ [request])
       /\ (args_verbose (args_from_stdin false) = false ->
           stderr (fst (main (responses_returning None)
                          (chat_returning (Some (lit "Test Title")))
                          OpenAI_plain environ_empty stdin_hi help_text
                          no_traceback (args_from_stdin false) started))
           = stderr started).
Proof.
  split; [reflexivity|].
  exact (X8_main_success (responses_returning None)
           (chat_returning (Some (lit "Test Title")))
           OpenAI_plain environ_empty stdin_hi help_text no_traceback
           (args_from_stdin false) started eq_refl).
Defined.

Lemma unexpected_error_run :
  snd (main (responses_returning None) (chat_returning None)
         OpenAI_checking_proxy (environ_bogus_proxy None) stdin_hi help_text
         no_traceback (args_positional (Some (lit "Test text")) true) started)
  = inl (SystemExit 1).
Proof. vm_compute. reflexivity. Defined.

Lemma X9_main_failure_reported_witness :
  (forall sig, stdin_hi = inl sig -> sig = KeyboardInterrupt)
  /\ (forall cl k code,
         responses_returning None cl k <> inl (SystemExit code))
  /\ (forall cl k code, chat_returning None cl k <> inl (SystemExit code))
  /\ snd (main (responses_returning None) (chat_returning None)
            OpenAI_checking_proxy (environ_bogus_proxy None) stdin_hi
            help_text no_traceback
            (args_positional (Some (lit "Test text")) true) started)
     = inl (SystemExit 1)
  /\ exists before message after,
       stderr (fst (main (responses_returning None) (chat_returning None)
                      OpenAI_checking_proxy (environ_bogus_proxy None)
                      stdin_hi help_text no_traceback
                      (args_positional (Some (lit "Test text")) true)
                      started))
       = stderr started ++ before ++ (message ++ LF) ++ after
       /\ (args_verbose (args_positional (Some (lit "Test text")) true) = false
           -> before = [])
       /\ (startswith message (lit "Error: ") = true
           \/ startswith message (lit "Unexpected error: ") = true
           \/ message = LF ++ lit "Operation cancelled.")
       /\ (after = []
           \/ (args_verbose (args_positional (Some (lit "Test text")) true)
               = true
               /\ startswith message (lit "Unexpected error: ") = true
               /\ exists e, after = no_traceback e)).
Proof.
  split; [exact stdin_hi_only_interrupts|].
  split; [exact (responses_returning_no_exit None)|].
  split; [exact (chat_returning_no_exit None)|].
  split; [exact unexpected_error_run|].
  exact (proj2 (X9_main_failure_reported (responses_returning None)
                  (chat_returning None)
                  OpenAI_checking_proxy (environ_bogus_proxy None) stdin_hi
                  help_text no_traceback
                  (args_positional (Some (lit "Test text")) true) started
                  stdin_hi_only_interrupts
                  (responses_returning_no_exit None)
                  (chat_returning_no_exit None) unexpected_error_run)).
Defined.

Lemma strip_hi_not_empty : strip (lit " hi ") <> [].
Proof. vm_compute. discriminate. Defined.

Lemma X12_stdin_as_positional_witness :
  args_stdin (args_from_stdin true) = true
  /\ stdin_hi = inr (lit " hi ")
  /\ strip (lit " hi ") <> []
  /\ main (responses_returning None) (chat_returning (Some (lit "Test Title")))
       OpenAI_plain environ_empty stdin_hi help_text no_traceback
       (args_from_stdin true) started
     = main (responses_returning None) (chat_returning (Some (lit "Test Title")))
         OpenAI_plain environ_empty stdin_hi help_text no_traceback
         (with_text (strip (lit " hi ")) (args_from_stdin true)) started.
Proof.
  split; [reflexivity|]. split; [reflexivity|].
  split; [exact strip_hi_not_empty|].
  exact (X12_stdin_as_positional (responses_returning None)
           (chat_returning (Some (lit "Test Title")))
           OpenAI_plain environ_empty stdin_hi help_text no_traceback
           (args_from_stdin true) started (lit " hi ")
           eq_refl eq_refl strip_hi_not_empty).
Defined.

Lemma construction_refused :
  Client_init OpenAI_checking_proxy (environ_bogus_proxy None)
    (args_api_key (args_positional (Some (lit "Test text")) false))
    (args_model (args_positional (Some (lit "Test text")) false))
  = inl (Exception (OtherException None (lit "Unknown scheme for proxy URL"))).
Proof. vm_compute. reflexivity. Defined.

Lemma X13_client_errors_reported_witness :
  input_text stdin_hi (args_positional (Some (lit "Test text")) false)
  = Some (lit "Test text")
  /\ Client_init OpenAI_checking_proxy (environ_bogus_proxy None)
       (args_api_key (args_positional (Some (lit "Test text")) false))
       (args_model (args_positional (Some (lit "Test text")) false))
     = inl (Exception
              (OtherException None (lit "Unknown scheme for proxy URL")))
  /\ snd (main (responses_returning None) (chat_returning None)
            OpenAI_checking_proxy (environ_bogus_proxy None) stdin_hi
            help_text no_traceback
            (args_positional (Some (lit "Test text")) false) started)
     = inl (SystemExit 1)
  /\ stdout (fst (main (responses_returning None) (chat_returning None)
                    OpenAI_checking_proxy (environ_bogus_proxy None) stdin_hi
                    help_text no_traceback
                    (args_positional (Some (lit "Test text")) false) started))
     = stdout started.
Proof.
  split; [reflexivity|]. split; [exact construction_refused|].
  destruct (X13_client_errors_reported (responses_returning None)
              (chat_returning None)
              OpenAI_checking_proxy (environ_bogus_proxy None) stdin_hi
              help_text no_traceback
              (args_positional (Some (lit "Test text")) false) started
              (lit "Test text")
              (OtherException None (lit "Unknown scheme for proxy URL"))
              eq_refl (or_introl construction_refused)) as [H1 [H2 _]].
  split; assumption.
Defined.

Lemma X15_no_request_without_valid_input_witness :
  (input_text stdin_hi (args_positional (Some (lit "   ")) true) = None
   \/ (exists e,
          Client_init OpenAI_plain environ_empty
            (args_api_key (args_positional (Some (lit "   ")) true))
            (args_model (args_positional (Some (lit "   ")) true)) = inl e)
   \/ (exists text,
          input_text stdin_hi (args_positional (Some (lit "   ")) true)
          = Some text /\ ~ valid_input text))
  /\ requests (fst (main (responses_returning None) (chat_returning None)
                      OpenAI_plain environ_empty stdin_hi help_text
                      no_traceback
                      (args_positional (Some (lit "   ")) true) started))
     = requests started.
Proof.
  assert (H : input_text stdin_hi (args_positional (Some (lit "   ")) true)
              = None
              \/ (exists e,
                     Client_init OpenAI_plain environ_empty
                       (args_api_key (args_positional (Some (lit "   ")) true))
                       (args_model (args_positional (Some (lit "   ")) true))
                     = inl e)
              \/ (exists text,
                     input_text stdin_hi
                       (args_positional (Some (lit "   ")) true)
                     = Some text /\ ~ valid_input text)).
  { right. right. exists (lit "   "). split; [reflexivity|].
    intros [Hne _]. apply Hne. reflexivity. }
  split; [exact H|].
  exact (X15_no_request_without_valid_input (responses_returning None)
           (chat_returning None)
           OpenAI_plain environ_empty stdin_hi help_text no_traceback
           (args_positional (Some (lit "   ")) true) started H).
Defined.

Lemma X16_interrupt_during_call_witness :
  input_text stdin_hi (args_positional (Some (lit "Test text")) false)
  = Some (lit "Test text")
  /\ Client_init OpenAI_plain environ_empty
       (args_api_key (args_positional (Some (lit "Test text")) false))
       (args_model (args_positional (Some (lit "Test text")) false))
     = inr (test_client DEFAULT_MODEL)
  /\ valid_input (lit "Test text")
  /\ upstream_answer (responses_returning None) chat_interrupted
       (_client (test_client DEFAULT_MODEL))
       (request_for (test_client DEFAULT_MODEL) (strip (lit "Test text")))
     = Interrupted
  /\ snd (main (responses_returning None) chat_interrupted
            OpenAI_plain environ_empty stdin_hi help_text no_traceback
            (args_positional (Some (lit "Test text")) false) started)
     = inl (SystemExit 1)
  /\ requests (fst (main (responses_returning None) chat_interrupted
                      OpenAI_plain environ_empty stdin_hi help_text
                      no_traceback
                      (args_positional (Some (lit "Test text")) false)
                      started))
     = requests started
       ++ [request_for (test_client DEFAULT_MODEL) (strip (lit "Test text"))].
Proof.
  split; [reflexivity|]. split; [reflexivity|].
  split; [exact valid_Test_text|]. split; [reflexivity|].
  destruct (X16_interrupt_during_call (responses_returning None)
              chat_interrupted
              OpenAI_plain environ_empty stdin_hi help_text no_traceback
              (args_positional (Some (lit "Test text")) false) started
              (lit "Test text") (test_client DEFAULT_MODEL)
              eq_refl eq_refl valid_Test_text eq_refl) as [H1 [_ [H3 _]]].
  split; assumption.
Defined.

(** Two runs that end in the second and the third [except] clause of
    [main]: an interrupt during the upstream call, and an exception of
    the constructor of the package. *)
Example interrupt_shown :
  main (responses_returning None) chat_interrupted
    OpenAI_plain environ_empty stdin_hi help_text no_traceback
    (args_positional (Some (lit "Test text")) false) started
  = ({| stdout := [];
        stderr := LF ++ lit "Operation cancelled." ++ LF;
        requests :=
          [request_for (test_client DEFAULT_MODEL) (lit "Test text")] |},
     inl (SystemExit 1)).
Proof. vm_compute. reflexivity. Qed.

Example unexpected_error_shown :
  main (responses_returning None) (chat_returning (Some (lit "Test Title")))
    OpenAI_checking_proxy (environ_bogus_proxy None) stdin_hi help_text
    no_traceback (args_positional (Some (lit "Test text")) false) started
  = ({| stdout := [];
        stderr := lit "Unexpected error: Unknown scheme for proxy URL" ++ LF;
        requests := [] |},
     inl (SystemExit 1)).
Proof. vm_compute. reflexivity. Qed.
